(** * wiresteward agent: a shallow embedding of [agent.go]

    The agent provisions one WireGuard device: it creates the device,
    brings the link up, makes sure the device has a private key, and
    negotiates an address lease with a lease server over HTTP.

    What the agent reaches outside its own file (the kernel's link and
    route tables, the device's key store, the entropy source, the HTTP
    client, parsers and printers of libraries) is a record of
    capabilities, [Env].  The library functions the properties depend on
    are written out: [strings.Split], the base64 text of a key, and the
    clamping of a generated private key.  The agent's functions are
    written in a small monad, [Go], that threads the state of the host
    and of the lease server, records every outgoing call in a trace, and
    can panic. *)

From Stdlib Require Import String Ascii List ZArith Lia Bool.
From Stdlib Require Import DecimalString DecimalNat.
Import ListNotations.

Local Open Scope list_scope.
Local Open Scope string_scope.

Set Implicit Arguments.

(* ===================================================================== *)
(** * Go values *)
(* ===================================================================== *)

(** An [error] is [nil] ([None]) or carries the text of its [Error()]
    method. *)
Definition error : Type := option string.

(** A library call that follows the usual contract, either a value and a
    nil error or no value and an error. *)
Inductive result (A : Type) : Type :=
| Ok (a : A)
| Err (msg : string).

Arguments Ok {A} a.
Arguments Err {A} msg.

(** Characters that cannot be written inside a string literal. *)
Definition dquote : string := String "034"%char EmptyString.
Definition newline : string := String "010"%char EmptyString.

Definition quoted (s : string) : string := dquote ++ s ++ dquote.

(* ===================================================================== *)
(** * package strings *)
(* ===================================================================== *)

Module strings.

(** [strings.Count(s, sep)] for a one-byte separator. *)
Fixpoint Count (s : string) (sep : ascii) : nat :=
  match s with
  | EmptyString => 0
  | String c s' => (if Ascii.eqb c sep then 1 else 0) + Count s' sep
  end.

(** [strings.Split(s, sep)] for a one-byte separator: the substrings
    between the separators, the empty ones included. *)
Fixpoint Split (s : string) (sep : ascii) : list string :=
  match s with
  | EmptyString => [EmptyString]
  | String c s' =>
      if Ascii.eqb c sep then EmptyString :: Split s' sep
      else match Split s' sep with
           | [] => [String c EmptyString]
           | x :: xs => String c x :: xs
           end
  end.

(** [strings.Join(elems, sep)] for a one-byte separator. *)
Fixpoint Join (elems : list string) (sep : ascii) : string :=
  match elems with
  | [] => EmptyString
  | [x] => x
  | x :: rest => x ++ String sep (Join rest sep)
  end.

End strings.

(* ===================================================================== *)
(** * package encoding/base64 and package wgtypes (keys) *)
(* ===================================================================== *)

Module base64.

Definition encodeStd : string :=
  "ABCDEFGHIJKLMNOPQRSTUVWXYZabcdefghijklmnopqrstuvwxyz0123456789+/".

Definition padChar : ascii := "="%char.

(** [enc.encode[i]] *)
Definition encode (i : Z) : ascii :=
  match String.get (Z.to_nat i) encodeStd with
  | Some c => c
  | None => padChar
  end.

(** [base64.StdEncoding.EncodeToString]: three bytes become four
    characters; one or two remaining bytes are padded with [=]. *)
Fixpoint EncodeToString (src : list Z) : string :=
  match src with
  | [] => EmptyString
  | [b0] =>
      let val := Z.shiftl b0 16 in
      String (encode (Z.land (Z.shiftr val 18) 63))
     (String (encode (Z.land (Z.shiftr val 12) 63))
     (String padChar (String padChar EmptyString)))
  | [b0; b1] =>
      let val := Z.lor (Z.shiftl b0 16) (Z.shiftl b1 8) in
      String (encode (Z.land (Z.shiftr val 18) 63))
     (String (encode (Z.land (Z.shiftr val 12) 63))
     (String (encode (Z.land (Z.shiftr val 6) 63))
     (String padChar EmptyString)))
  | b0 :: b1 :: b2 :: rest =>
      let val := Z.lor (Z.lor (Z.shiftl b0 16) (Z.shiftl b1 8)) b2 in
      String (encode (Z.land (Z.shiftr val 18) 63))
     (String (encode (Z.land (Z.shiftr val 12) 63))
     (String (encode (Z.land (Z.shiftr val 6) 63))
     (String (encode (Z.land val 63))
             (EncodeToString rest))))
  end.

End base64.

Module wgtypes.

(** [wgtypes.KeyLen] *)
Definition KeyLen : nat := 32.

(** [wgtypes.Key] is [[KeyLen]byte]; a byte is a [Z] in [0, 256). *)
Definition Key : Type := list Z.

(** The zero value [Key{}]. *)
Definition Key_zero : Key := repeat 0%Z KeyLen.

(** [k.String()] *)
Definition Key_String (k : Key) : string := base64.EncodeToString k.

(** [key[i] = f(key[i])] *)
Fixpoint update (i : nat) (f : Z -> Z) (k : Key) : Key :=
  match k, i with
  | [], _ => []
  | b :: k', O => f b :: k'
  | b :: k', S i' => b :: update i' f k'
  end.

(** [wgtypes.NewKey(b)] *)
Definition NewKey (b : list Z) : result Key :=
  if Nat.eqb (length b) KeyLen then Ok b
  else Err "wgtypes: incorrect key size".

(** The three assignments of [GeneratePrivateKey] that turn random
    bytes into a Curve25519 private key:
    [key[0] &= 248; key[31] &= 127; key[31] |= 64]. *)
Definition clamp (key : Key) : Key :=
  update 31 (fun b => Z.lor b 64)
    (update 31 (fun b => Z.land b 127)
       (update 0 (fun b => Z.land b 248) key)).

(** Modelled from the spec: the peer configuration is built by
    [newPeerConfig], which is not in [agent.go].  The spec gives it the
    peer's public key, a pre-shared key, the endpoint and the allowed-IP
    prefixes; each is kept as the string the lease carries. *)
Record PeerConfig : Type := mkPeerConfig {
  PublicKey : string;
  PresharedKey : string;
  Endpoint : string;
  AllowedIPs : list string
}.

(** [wgtypes.PeerConfig{}] *)
Definition PeerConfig_zero : PeerConfig :=
  mkPeerConfig EmptyString EmptyString EmptyString [].

End wgtypes.

(** The value [getKeys] reports for a device without a private key
    (line 55 of [agent.go]). *)
Definition emptyKey : string :=
  "AAAAAAAAAAAAAAAAAAAAAAAAAAAAAAAAAAAAAAAAAAA=".


(* ===================================================================== *)
(** * Data model *)
(* ===================================================================== *)

Module net.

(** [net.IPNet]: an address and a mask, both byte slices. *)
Record IPNet : Type := mkIPNet {
  IP : list Z;
  Mask : list Z
}.

End net.

Module http.

(** [http.Header], a map from header names to values. *)
Definition Header : Type := list (string * string).

(** [h.Set(key, value)]: the entry for [key] is replaced. *)
Fixpoint Header_Set (h : Header) (key value : string) : Header :=
  match h with
  | [] => [(key, value)]
  | (k, v) :: h' =>
      if String.eqb k key then (key, value) :: h'
      else (k, v) :: Header_Set h' key value
  end.

Module Request.
Record t : Type := mk {
  Method : string;
  URL : string;
  Header : http.Header;
  Body : string
}.
End Request.

(** The body of a response: the bytes that can be read from it and the
    error, if any, that reading them ends with. *)
Record ReadCloser : Type := mkReadCloser {
  data : string;
  read_error : error
}.

Module Response.
Record t : Type := mk {
  StatusCode : Z;
  Status : string;
  Body : ReadCloser
}.
End Response.

End http.

Module ioutil.

(** [ioutil.ReadAll(r)] *)
Definition ReadAll (r : http.ReadCloser) : string * error :=
  (http.data r, http.read_error r).

End ioutil.

(** [type Request struct], the body of a lease request. *)
Module Request.
Record t : Type := mk {
  PubKey : string
}.

(** Modelled from the spec: the declaration of [Request], which fixes
    the name of its field in JSON, is not in [agent.go]; the spec gives
    the request body as an object with the single member pubKey. *)
Definition PubKey_json : string := "pubKey".
End Request.

(** [type Response struct], the lease the server grants. *)
Module Response.
Record t : Type := mk {
  IP : string;
  AllowedIPs : string;
  PubKey : string;
  Endpoint : string
}.

(** [Response{}] *)
Definition zero : t := mk EmptyString EmptyString EmptyString EmptyString.
End Response.

(** [*netlinkHandle], the handle [NewNetLinkHandle()] returns. *)
Inductive netlinkHandle : Type := NewNetLinkHandle.

(** [chan bool]; [make_chan] is [make(chan bool)]. *)
Inductive chan : Type := make_chan.

(** [TunDevice], the handle [startTunDevice] returns for a device. *)
Inductive TunDevice : Type := TunDevice_of (name : string).

(** [type Agent struct]; a pointer field is an [option], [None] for nil. *)
Module Agent.
Record t : Type := mk {
  device : string;
  pubKey : string;
  privKey : string;
  netlinkHandle : netlinkHandle;
  stop : option chan;
  tundev : option TunDevice
}.

Definition set_pubKey (a : t) (v : string) : t :=
  mk (device a) v (privKey a) (netlinkHandle a) (stop a) (tundev a).
Definition set_privKey (a : t) (v : string) : t :=
  mk (device a) (pubKey a) v (netlinkHandle a) (stop a) (tundev a).
Definition set_stop (a : t) (v : option chan) : t :=
  mk (device a) (pubKey a) (privKey a) (netlinkHandle a) v (tundev a).
Definition set_tundev (a : t) (v : option TunDevice) : t :=
  mk (device a) (pubKey a) (privKey a) (netlinkHandle a) (stop a) v.
End Agent.

(* ===================================================================== *)
(** * Calls that leave the agent *)
(* ===================================================================== *)

(** One constructor for each call the agent makes outside [agent.go],
    with the arguments of the call. *)
Inductive Event : Type :=
| Call_startTunDevice (deviceName : string) (stop : chan)
| Go_Run (tundev : option TunDevice)
| Call_EnsureLinkUp (deviceName : string)
| Call_getKeys (deviceName : string)
| Call_GeneratePrivateKey
| Call_setPrivateKey (deviceName privKey : string)
| Call_ParseIPNet (s : string)
| Call_UpdateIP (deviceName : string) (ip : net.IPNet)
| Call_AddRoute (deviceName : string) (dst : net.IPNet)
| Call_NewRequest (method url body : string)
| Call_Do (req : http.Request.t)
| Call_Body_Close
| Call_newPeerConfig (publicKey presharedKey endpoint : string)
                     (allowedIPs : list string)
| Log_Printf (msg : string).

(** The capabilities of the host ([H] is its state: links, addresses,
    routes, device keys, entropy) and of the lease server ([N]). *)
Record Env (H N : Type) : Type := mkEnv {
  (* functions of this repository that live in other files *)
  startTunDevice : string -> chan -> H -> (option TunDevice * error) * H;
  EnsureLinkUp : netlinkHandle -> string -> H -> error * H;
  UpdateIP : netlinkHandle -> string -> net.IPNet -> H -> error * H;
  AddRoute : netlinkHandle -> string -> net.IPNet -> H -> error * H;
  getKeys : string -> H -> (string * string * error) * H;
  setPrivateKey : string -> string -> H -> error * H;
  newPeerConfig : string -> string -> string -> list string ->
                  option wgtypes.PeerConfig * error;
  (* libraries *)
  ParseIPNet : string -> result net.IPNet;
  IPNet_String : net.IPNet -> string;
  rand_Read : nat -> H -> result (list Z) * H;
  url_Parse : string -> error;
  json_string : string -> string;
  json_Unmarshal : string -> Response.t -> Response.t * error;
  client_Do : http.Request.t -> N -> result http.Response.t * N
}.

Arguments mkEnv {H N}.
Arguments startTunDevice {H N} e _ _ _.
Arguments EnsureLinkUp {H N} e _ _ _.
Arguments UpdateIP {H N} e _ _ _ _.
Arguments AddRoute {H N} e _ _ _ _.
Arguments getKeys {H N} e _ _.
Arguments setPrivateKey {H N} e _ _ _.
Arguments newPeerConfig {H N} e _ _ _ _.
Arguments ParseIPNet {H N} e _.
Arguments IPNet_String {H N} e _.
Arguments rand_Read {H N} e _ _.
Arguments url_Parse {H N} e _.
Arguments json_string {H N} e _.
Arguments json_Unmarshal {H N} e _ _.
Arguments client_Do {H N} e _ _.

(* ===================================================================== *)
(** * The monad of the agent's functions *)
(* ===================================================================== *)

(** What a call of a Go function ends with. *)
Inductive Outcome (A : Type) : Type :=
| Returns (a : A)
| Panics (msg : string).

Arguments Returns {A} a.
Arguments Panics {A} msg.

(** The state a function runs in: the host, the lease server, and the
    calls made so far, oldest first. *)
Record World (H N : Type) : Type := mkWorld {
  host : H;
  remote : N;
  trace : list Event
}.

Arguments mkWorld {H N}.
Arguments host {H N} w.
Arguments remote {H N} w.
Arguments trace {H N} w.

Definition Go (H N A : Type) : Type := World H N -> Outcome A * World H N.

(** The panic of a nil pointer dereference. *)
Definition nil_dereference : string :=
  "runtime error: invalid memory address or nil pointer dereference".

Section Monad.

Context {H N : Type}.

Definition ret {A : Type} (a : A) : Go H N A :=
  fun w => (Returns a, w).

Definition bind {A B : Type} (m : Go H N A) (k : A -> Go H N B) : Go H N B :=
  fun w =>
    match m w with
    | (Returns a, w') => k a w'
    | (Panics msg, w') => (Panics msg, w')
    end.

Definition panic {A : Type} (msg : string) : Go H N A :=
  fun w => (Panics msg, w).

(** Record a call in the trace. *)
Definition emit (e : Event) : Go H N unit :=
  fun w => (Returns tt, mkWorld (host w) (remote w) (trace w ++ [e])%list).

(** Run a capability of the host, or of the lease server. *)
Definition on_host {A : Type} (f : H -> A * H) : Go H N A :=
  fun w => let (a, h) := f (host w) in
           (Returns a, mkWorld h (remote w) (trace w)).

Definition on_remote {A : Type} (f : N -> A * N) : Go H N A :=
  fun w => let (a, n) := f (remote w) in
           (Returns a, mkWorld (host w) n (trace w)).

(** [defer f(); body]: [f] runs when [body] has returned or panicked. *)
Definition defer {A : Type} (f : Go H N unit) (body : Go H N A) : Go H N A :=
  fun w =>
    match body w with
    | (Returns a, w') =>
        match f w' with
        | (Returns _, w'') => (Returns a, w'')
        | (Panics msg, w'') => (Panics msg, w'')
        end
    | (Panics msg, w') =>
        match f w' with
        | (Returns _, w'') => (Panics msg, w'')
        | (Panics msg', w'') => (Panics msg', w'')
        end
    end.

End Monad.

Declare Scope go_scope.
Delimit Scope go_scope with go.

Notation "x <- m ;; k" := (bind m (fun x => k))
  (at level 61, m at next level, right associativity) : go_scope.
Notation "' pat <- m ;; k" := (bind m (fun x => match x with pat => k end))
  (at level 61, pat pattern, m at next level, right associativity) : go_scope.
Notation "m ;; k" := (bind m (fun _ => k))
  (at level 61, right associativity) : go_scope.

Local Open Scope go_scope.

(* ===================================================================== *)
(** * agent.go *)
(* ===================================================================== *)

Section AgentCode.

Context {H N : Type} (E : Env H N).

(** ** Outgoing calls: each is recorded, then run *)

Definition call_startTunDevice (deviceName : string) (stop : chan)
  : Go H N (option TunDevice * error) :=
  emit (Call_startTunDevice deviceName stop) ;;
  on_host (startTunDevice E deviceName stop).

(** [go tundev.Run()]: the run loop is handed to a new goroutine. *)
Definition go_Run (tundev : option TunDevice) : Go H N unit :=
  emit (Go_Run tundev).

Definition call_EnsureLinkUp (h : netlinkHandle) (deviceName : string)
  : Go H N error :=
  emit (Call_EnsureLinkUp deviceName) ;;
  on_host (EnsureLinkUp E h deviceName).

Definition call_UpdateIP (h : netlinkHandle) (deviceName : string)
  (ip : net.IPNet) : Go H N error :=
  emit (Call_UpdateIP deviceName ip) ;;
  on_host (UpdateIP E h deviceName ip).

Definition call_AddRoute (h : netlinkHandle) (deviceName : string)
  (dst : net.IPNet) : Go H N error :=
  emit (Call_AddRoute deviceName dst) ;;
  on_host (AddRoute E h deviceName dst).

Definition call_getKeys (deviceName : string)
  : Go H N (string * string * error) :=
  emit (Call_getKeys deviceName) ;;
  on_host (getKeys E deviceName).

Definition call_setPrivateKey (deviceName privKey : string) : Go H N error :=
  emit (Call_setPrivateKey deviceName privKey) ;;
  on_host (setPrivateKey E deviceName privKey).

Definition call_ParseIPNet (s : string) : Go H N (result net.IPNet) :=
  emit (Call_ParseIPNet s) ;;
  ret (ParseIPNet E s).

Definition call_newPeerConfig (publicKey presharedKey endpoint : string)
  (allowedIPs : list string) : Go H N (option wgtypes.PeerConfig * error) :=
  emit (Call_newPeerConfig publicKey presharedKey endpoint allowedIPs) ;;
  ret (newPeerConfig E publicKey presharedKey endpoint allowedIPs).

(** ** Library functions built on the capabilities *)

(** [wgtypes.GenerateKey]: [KeyLen] bytes from [crypto/rand]. *)
Definition GenerateKey (h : H) : result wgtypes.Key * H :=
  match rand_Read E wgtypes.KeyLen h with
  | (Err e, h') => (Err ("wgtypes: failed to read random bytes: " ++ e), h')
  | (Ok b, h') => (wgtypes.NewKey b, h')
  end.

(** [wgtypes.GeneratePrivateKey]: a random key, clamped. *)
Definition GeneratePrivateKey (h : H) : result wgtypes.Key * H :=
  match GenerateKey h with
  | (Err e, h') => (Err e, h')
  | (Ok key, h') => (Ok (wgtypes.clamp key), h')
  end.

Definition call_GeneratePrivateKey : Go H N (result wgtypes.Key) :=
  emit Call_GeneratePrivateKey ;;
  on_host GeneratePrivateKey.

(** [json.Marshal(&Request{...})]: an object with one member.
    Marshalling a struct whose only field is a string cannot fail. *)
Definition json_Marshal (r : Request.t) : string * error :=
  ("{" ++ quoted Request.PubKey_json ++ ":"
   ++ json_string E (Request.PubKey r) ++ "}",
   None).

(** [http.NewRequest(method, url, body)]: fails when the URL does not
    parse; the new request has no headers yet. *)
Definition NewRequest (method url body : string) : result http.Request.t :=
  match url_Parse E url with
  | Some e => Err e
  | None => Ok (http.Request.mk method url [] body)
  end.

Definition call_NewRequest (method url body : string)
  : Go H N (result http.Request.t) :=
  emit (Call_NewRequest method url body) ;;
  ret (NewRequest method url body).

(** [req.Header.Set(key, value)] *)
Definition Request_Header_Set (req : http.Request.t) (key value : string)
  : http.Request.t :=
  http.Request.mk (http.Request.Method req) (http.Request.URL req)
    (http.Header_Set (http.Request.Header req) key value)
    (http.Request.Body req).

Definition call_Do (req : http.Request.t) : Go H N (result http.Response.t) :=
  emit (Call_Do req) ;;
  on_remote (client_Do E req).

(** [resp.Body.Close()] *)
Definition Body_Close : Go H N unit := emit Call_Body_Close.

(** ** Lines 75-118: [requestWgConfig] *)

Definition requestWgConfig (a : Agent.t) (serverUrl token : string)
  : Go H N (Response.t * error) :=
  let (r, err) := json_Marshal (Request.mk (Agent.pubKey a)) in
  match err with
  | Some e => ret (Response.zero, Some e)
  | None =>
      (* the error of NewRequest is dropped: [err] is assigned again
         by client.Do before it is read *)
      req <- call_NewRequest "POST" (serverUrl ++ "/newPeerLease") r ;;
      match req with
      | Err _ => panic nil_dereference   (* req.Header on a nil req *)
      | Ok req =>
          let req := Request_Header_Set req "Content-Type" "application/json" in
          let bearer := "Bearer " ++ token in
          let req := Request_Header_Set req "Authorization" bearer in
          resp <- call_Do req ;;
          match resp with
          | Err e => ret (Response.zero, Some e)
          | Ok resp =>
              defer Body_Close
                (if negb (Z.eqb (http.Response.StatusCode resp) 200) then
                   ret (Response.zero,
                        Some ("Response status: " ++ http.Response.Status resp))
                 else
                   let (body, err) :=
                     ioutil.ReadAll (http.Response.Body resp) in
                   match err with
                   | Some e =>
                       ret (Response.zero,
                            Some ("error reading response body: " ++ e ++ ","))
                   | None =>
                       let (response, err) :=
                         json_Unmarshal E body Response.zero in
                       match err with
                       | Some e => ret (response, Some e)
                       | None => ret (response, None)
                       end
                   end)
          end
      end
  end.

(** ** Lines 120-122: [SetPrivKey] *)

Definition SetPrivKey (a : Agent.t) : Go H N error :=
  call_setPrivateKey (Agent.device a) (Agent.privKey a).

(** ** Lines 124-138: [addIpToDev] *)

Definition addIpToDev (a : Agent.t) (ip : string) : Go H N error :=
  r <- call_ParseIPNet ip ;;
  match r with
  | Err e => ret (Some ("Cannot parse offered ip net: " ++ e))
  | Ok devIP =>
      emit (Log_Printf ("Configuring offered ip: " ++ IPNet_String E devIP
                        ++ " on dev: " ++ Agent.device a ++ newline)) ;;
      err <- call_UpdateIP (Agent.netlinkHandle a) (Agent.device a) devIP ;;
      match err with
      | Some e => ret (Some e)
      | None => ret None
      end
  end.

(** ** Lines 140-158: [addRoutesForAllowedIps] *)

Fixpoint addRoutesForAllowedIps (a : Agent.t) (allowed_ips : list string)
  : Go H N error :=
  match allowed_ips with
  | [] => ret None
  | aip :: rest =>
      r <- call_ParseIPNet aip ;;
      match r with
      | Err e => ret (Some ("Cannot parse ip: " ++ aip ++ ": " ++ e))
      | Ok dst =>
          emit (Log_Printf ("Adding route: " ++ IPNet_String E dst
                            ++ " on dev " ++ Agent.device a ++ newline)) ;;
          err <- call_AddRoute (Agent.netlinkHandle a) (Agent.device a) dst ;;
          match err with
          | Some e =>
              ret (Some ("Eror adding route " ++ IPNet_String E dst
                         ++ " via " ++ Agent.device a ++ ": " ++ e))
          | None => addRoutesForAllowedIps a rest
          end
      end
  end.

(** ** Lines 163-180: [GetNewWgLease] *)

Definition GetNewWgLease (a : Agent.t) (serverUrl token : string)
  : Go H N (option wgtypes.PeerConfig * list string * error) :=
  '(resp, err) <- requestWgConfig a serverUrl token ;;
  match err with
  | Some e => ret (Some wgtypes.PeerConfig_zero, [], Some e)
  | None =>
      err <- addIpToDev a (Response.IP resp) ;;
      match err with
      | Some e => ret (Some wgtypes.PeerConfig_zero, [], Some e)
      | None =>
          let allowed_ips :=
            strings.Split (Response.AllowedIPs resp) ","%char in
          '(peer, err) <- call_newPeerConfig (Response.PubKey resp) EmptyString
                            (Response.Endpoint resp) allowed_ips ;;
          match err with
          | Some e => ret (Some wgtypes.PeerConfig_zero, [], Some e)
          | None => ret (peer, allowed_ips, None)
          end
      end
  end.

(** ** Lines 26-73: [NewAgent] *)

(** Lines 66-72: fetch the keys from the interface and save them.  The
    two fields are assigned whether or not [getKeys] fails. *)
Definition NewAgent_fetch (a : Agent.t) (deviceName : string)
  : Go H N (Agent.t * error) :=
  '(pubKey, privKey, err) <- call_getKeys deviceName ;;
  let a := Agent.set_privKey (Agent.set_pubKey a pubKey) privKey in
  match err with
  | Some e => ret (a, Some e)
  | None => ret (a, None)
  end.

(** Lines 48-72: check if there is a private key or generate one, then
    fetch the keys.  This part of [NewAgent] has a name of its own so
    that it can be run by itself. *)
Definition NewAgent_keys (a : Agent.t) (deviceName : string)
  : Go H N (Agent.t * error) :=
  '(_, privKey, err) <- call_getKeys deviceName ;;
  match err with
  | Some e =>
      ret (a, Some ("Cannot get keys for device: " ++ deviceName ++ ": " ++ e))
  | None =>
      if String.eqb privKey emptyKey then
        newKey <- call_GeneratePrivateKey ;;
        match newKey with
        | Err e => ret (a, Some e)
        | Ok newKey =>
            let a := Agent.set_privKey a (wgtypes.Key_String newKey) in
            err <- SetPrivKey a ;;
            match err with
            | Some e => ret (a, Some e)
            | None => NewAgent_fetch a deviceName
            end
        end
      else NewAgent_fetch a deviceName
  end.

Definition NewAgent (deviceName : string) : Go H N (Agent.t * error) :=
  let a := Agent.mk deviceName EmptyString EmptyString NewNetLinkHandle
                    None None in
  let stop := make_chan in
  '(tundev, err) <- call_startTunDevice deviceName stop ;;
  match err with
  | Some e =>
      ret (a, Some ("Error starting wg device: " ++ deviceName ++ ": " ++ e))
  | None =>
      let a := Agent.set_tundev (Agent.set_stop a (Some stop)) tundev in
      go_Run (Agent.tundev a) ;;
      err <- call_EnsureLinkUp (Agent.netlinkHandle a) deviceName ;;
      match err with
      | Some e => ret (a, Some e)
      | None => NewAgent_keys a deviceName
      end
  end.

End AgentCode.

(* ===================================================================== *)
(** * A test double for the capabilities *)
(* ===================================================================== *)

(** A host and a lease server simple enough to run the agent on: the
    host keeps lists of devices, links that are up, addresses, routes
    and private keys, and a queue of random byte strings; the lease
    server answers with the replies queued for it. *)
Module Fake.

Record Host : Type := mkHost {
  devices : list string;
  links_up : list string;
  addresses : list (string * net.IPNet);
  routes : list (string * net.IPNet);
  keys : list (string * string);
  entropy : list (list Z)
}.

Definition Remote : Type := list (result http.Response.t).

Definition has_device (name : string) (h : Host) : bool :=
  existsb (String.eqb name) (devices h).

Definition no_such_device : string := "no such device".

(** Interface names are at most 15 bytes long and not empty. *)
Definition startTunDevice (name : string) (stop : chan) (h : Host)
  : (option TunDevice * error) * Host :=
  if orb (String.eqb name EmptyString) (Nat.ltb 15 (String.length name)) then
    ((None, Some "invalid interface name"), h)
  else
    ((Some (TunDevice_of name), None),
     mkHost (name :: devices h) (links_up h) (addresses h) (routes h)
            (keys h) (entropy h)).

Definition EnsureLinkUp (_ : netlinkHandle) (name : string) (h : Host)
  : error * Host :=
  if has_device name h then
    (None, mkHost (devices h) (name :: links_up h) (addresses h) (routes h)
                  (keys h) (entropy h))
  else (Some no_such_device, h).

Definition UpdateIP (_ : netlinkHandle) (name : string) (ip : net.IPNet)
  (h : Host) : error * Host :=
  if has_device name h then
    (None, mkHost (devices h) (links_up h) (addresses h ++ [(name, ip)])%list
                  (routes h) (keys h) (entropy h))
  else (Some no_such_device, h).

Definition AddRoute (_ : netlinkHandle) (name : string) (dst : net.IPNet)
  (h : Host) : error * Host :=
  if has_device name h then
    (None, mkHost (devices h) (links_up h) (addresses h)
                  (routes h ++ [(name, dst)])%list (keys h) (entropy h))
  else (Some no_such_device, h).

Fixpoint lookup (name : string) (l : list (string * string)) : option string :=
  match l with
  | [] => None
  | (k, v) :: l' => if String.eqb k name then Some v else lookup name l'
  end.

(** A stand-in for the derivation of the public key. *)
Definition public_of (privKey : string) : string := "pub:" ++ privKey.

(** A device without a private key reports the empty key. *)
Definition getKeys (name : string) (h : Host)
  : (string * string * error) * Host :=
  if has_device name h then
    let priv := match lookup name (keys h) with
                | Some k => k
                | None => emptyKey
                end in
    ((public_of priv, priv, None), h)
  else ((EmptyString, EmptyString, Some no_such_device), h).

Definition setPrivateKey (name privKey : string) (h : Host) : error * Host :=
  if has_device name h then
    (None, mkHost (devices h) (links_up h) (addresses h) (routes h)
                  ((name, privKey) :: keys h) (entropy h))
  else (Some no_such_device, h).

Definition rand_Read (n : nat) (h : Host) : result (list Z) * Host :=
  match entropy h with
  | [] => (Err "EOF", h)
  | b :: rest =>
      (Ok b, mkHost (devices h) (links_up h) (addresses h) (routes h)
                    (keys h) rest)
  end.

(** A peer configuration needs a public key. *)
Definition newPeerConfig (publicKey presharedKey endpoint : string)
  (allowedIPs : list string) : option wgtypes.PeerConfig * error :=
  if String.eqb publicKey EmptyString then (None, Some "empty public key")
  else (Some (wgtypes.mkPeerConfig publicKey presharedKey endpoint allowedIPs),
        None).

(** Decimal numbers. *)
Definition atoi (s : string) : option Z :=
  match s with
  | EmptyString => None
  | _ => option_map (fun u => Z.of_N (N.of_uint u)) (NilZero.uint_of_string s)
  end.

Definition itoa (z : Z) : string :=
  NilZero.string_of_uint (N.to_uint (Z.to_N z)).

Fixpoint octets (l : list string) : option (list Z) :=
  match l with
  | [] => Some []
  | s :: l' =>
      match atoi s, octets l' with
      | Some z, Some zs => if Z.leb z 255 then Some (z :: zs) else None
      | _, _ => None
      end
  end.

(** [net.CIDRMask(ones, 32)] *)
Definition CIDRMask (ones : Z) : list Z :=
  map (fun i => let bits := Z.max 0 (Z.min 8 (ones - 8 * i)) in
                256 - 2 ^ (8 - bits))%Z
      [0; 1; 2; 3]%Z.

(** Dotted-quad addresses with a prefix length, such as 10.0.0.5/32. *)
Definition ParseIPNet (s : string) : result net.IPNet :=
  match strings.Split s "/"%char with
  | [addr; len] =>
      match octets (strings.Split addr "."%char), atoi len with
      | Some [a; b; c; d], Some ones =>
          if Z.leb ones 32 then Ok (net.mkIPNet [a; b; c; d] (CIDRMask ones))
          else Err ("invalid CIDR address: " ++ s)
      | _, _ => Err ("invalid CIDR address: " ++ s)
      end
  | _ => Err ("invalid CIDR address: " ++ s)
  end.

Definition ones_of (b : Z) : Z :=
  (if b =? 255 then 8 else if b =? 254 then 7 else if b =? 252 then 6
   else if b =? 248 then 5 else if b =? 240 then 4 else if b =? 224 then 3
   else if b =? 192 then 2 else if b =? 128 then 1 else 0)%Z.

Definition IPNet_String (n : net.IPNet) : string :=
  strings.Join (map itoa (net.IP n)) "."%char ++ "/"
  ++ itoa (fold_right Z.add 0%Z (map ones_of (net.Mask n))).

(** A URL must not hold control characters. *)
Fixpoint has_control (s : string) : bool :=
  match s with
  | EmptyString => false
  | String c s' =>
      orb (orb (Nat.ltb (nat_of_ascii c) 32) (Nat.eqb (nat_of_ascii c) 127))
          (has_control s')
  end.

Definition url_Parse (url : string) : error :=
  if has_control url then Some "net/url: invalid control character in URL"
  else None.

(** Strings in JSON: quotes and backslashes are escaped. *)
Fixpoint json_escape (s : string) : string :=
  match s with
  | EmptyString => EmptyString
  | String c s' =>
      if orb (Ascii.eqb c "034"%char) (Ascii.eqb c "\"%char)
      then String "\"%char (String c (json_escape s'))
      else String c (json_escape s')
  end.

Definition json_string (s : string) : string := quoted (json_escape s).

(** Objects whose members are strings without escapes: cut at the
    quotes, the pieces are then [{], key, [:], value, [,], key, ... [}]. *)
Definition set_field (key value : string) (r : Response.t) : Response.t :=
  if String.eqb key "IP" then
    Response.mk value (Response.AllowedIPs r) (Response.PubKey r)
                (Response.Endpoint r)
  else if String.eqb key "AllowedIPs" then
    Response.mk (Response.IP r) value (Response.PubKey r) (Response.Endpoint r)
  else if String.eqb key "PubKey" then
    Response.mk (Response.IP r) (Response.AllowedIPs r) value
                (Response.Endpoint r)
  else if String.eqb key "Endpoint" then
    Response.mk (Response.IP r) (Response.AllowedIPs r) (Response.PubKey r)
                value
  else r.

Definition syntax_error : string := "invalid character in JSON input".

Fixpoint members (pieces : list string) (r : Response.t)
  : Response.t * error :=
  match pieces with
  | key :: colon :: value :: sep :: rest =>
      if String.eqb colon ":" then
        let r' := set_field key value r in
        if String.eqb sep "}" then
          match rest with
          | [] => (r', None)
          | _ => (r', Some syntax_error)
          end
        else if String.eqb sep "," then members rest r'
        else (r', Some syntax_error)
      else (r, Some syntax_error)
  | _ => (r, Some syntax_error)
  end.

Definition json_Unmarshal (body : string) (r : Response.t)
  : Response.t * error :=
  match strings.Split body "034"%char with
  | [whole] => if String.eqb whole "{}" then (r, None)
               else (r, Some syntax_error)
  | open :: rest =>
      if String.eqb open "{" then members rest r else (r, Some syntax_error)
  | [] => (r, Some syntax_error)
  end.

(** The lease server sends the next reply in its queue. *)
Definition client_Do (req : http.Request.t) (n : Remote)
  : result http.Response.t * Remote :=
  match n with
  | [] => (Err "connection refused", [])
  | reply :: rest => (reply, rest)
  end.

Definition env : Env Host Remote :=
  mkEnv startTunDevice EnsureLinkUp UpdateIP AddRoute getKeys setPrivateKey
        newPeerConfig ParseIPNet IPNet_String rand_Read url_Parse json_string
        json_Unmarshal client_Do.

(** A host with nothing configured and [random] waiting to be read. *)
Definition fresh_host (random : list (list Z)) : Host :=
  mkHost [] [] [] [] [] random.

(** A host on which device [name] exists, is up and has key [key]. *)
Definition keyed_host (name key : string) : Host :=
  mkHost [name] [name] [] [] [(name, key)] [].

Definition world (h : Host) (n : Remote) : World Host Remote :=
  mkWorld h n [].

Definition ok_reply (body : string) : result http.Response.t :=
  Ok (http.Response.mk 200 "200 OK" (http.mkReadCloser body None)).

Definition status_reply (code : Z) (status : string)
  : result http.Response.t :=
  Ok (http.Response.mk code status (http.mkReadCloser EmptyString None)).

End Fake.

(* ===================================================================== *)
(** * Contracts of the parts that are not in [agent.go] *)
(* ===================================================================== *)

(** Modelled from the spec: [getKeys] and [setPrivateKey] are not in
    [agent.go].  The spec describes them as the key store, which gets
    and sets the private key of a named device: reading the keys leaves
    the host as it is, and a key that has been set is the private key
    that is read afterwards. *)
Record KeyStore {H N : Type} (E : Env H N) : Prop := mkKeyStore {
  getKeys_reads :
    forall deviceName h, snd (getKeys E deviceName h) = h;
  getKeys_after_set :
    forall deviceName key h h' pubKey privKey h'',
      setPrivateKey E deviceName (wgtypes.Key_String key) h = (None, h') ->
      getKeys E deviceName h' = ((pubKey, privKey, None), h'') ->
      privKey = wgtypes.Key_String key
}.

(** Modelled from the spec: [newPeerConfig] is not in [agent.go].  The
    spec has it construct the peer configuration from the public key,
    the pre-shared key, the endpoint and the allowed IPs it is given. *)
Definition PeerConfigFromLease {H N : Type} (E : Env H N) : Prop :=
  forall publicKey presharedKey endpoint allowedIPs peer,
    newPeerConfig E publicKey presharedKey endpoint allowedIPs = (peer, None) ->
    peer = Some (wgtypes.mkPeerConfig publicKey presharedKey endpoint
                                      allowedIPs).

(* ===================================================================== *)
(** * Observations on traces *)
(* ===================================================================== *)

(** Calls that install an address or a route on a device. *)
Definition installs (e : Event) : bool :=
  match e with
  | Call_UpdateIP _ _ | Call_AddRoute _ _ => true
  | _ => false
  end.

Definition installs_route (e : Event) : bool :=
  match e with
  | Call_AddRoute _ _ => true
  | _ => false
  end.

Definition generates_key (e : Event) : bool :=
  match e with
  | Call_GeneratePrivateKey => true
  | _ => false
  end.

Definition writes_key (e : Event) : bool :=
  match e with
  | Call_setPrivateKey _ _ => true
  | _ => false
  end.

Definition count (p : Event -> bool) (t : list Event) : nat :=
  length (filter p t).

(** The body of a lease request for public key [pubKey]. *)
Definition lease_request_body {H N : Type} (E : Env H N) (pubKey : string)
  : string :=
  "{" ++ quoted Request.PubKey_json ++ ":" ++ json_string E pubKey ++ "}".

(** The request [requestWgConfig] hands to the HTTP client. *)
Definition lease_request {H N : Type} (E : Env H N) (a : Agent.t)
  (serverUrl token : string) : http.Request.t :=
  http.Request.mk "POST" (serverUrl ++ "/newPeerLease")
    [("Content-Type", "application/json");
     ("Authorization", "Bearer " ++ token)]
    (lease_request_body E (Agent.pubKey a)).

(** An entry without the separator. *)
Definition no_sep (sep : ascii) (s : string) : Prop := strings.Count s sep = 0.

(* ===================================================================== *)
(** * The lease of the scenario *)
(* ===================================================================== *)

Module Scenario.

Definition lease : Response.t :=
  Response.mk "10.0.0.5/32" "10.0.1.0/24,10.0.2.0/24" "abc=" "1.2.3.4:51820".

Definition member (key value : string) : string :=
  quoted key ++ ":" ++ quoted value.

(** The body the server sends. *)
Definition body : string :=
  "{" ++ member "IP" "10.0.0.5/32" ++ ","
  ++ member "AllowedIPs" "10.0.1.0/24,10.0.2.0/24" ++ ","
  ++ member "PubKey" "abc=" ++ ","
  ++ member "Endpoint" "1.2.3.4:51820" ++ "}".

Definition peer : wgtypes.PeerConfig :=
  wgtypes.mkPeerConfig "abc=" EmptyString "1.2.3.4:51820"
                       ["10.0.1.0/24"; "10.0.2.0/24"].

Definition agent : Agent.t :=
  Agent.mk "wg0" "pub:KEY" "KEY" NewNetLinkHandle (Some make_chan)
           (Some (TunDevice_of "wg0")).

Definition serverUrl : string := "https://lease.example".
Definition token : string := "secret".

(** Device wg0 is up and keyed; the server grants the lease. *)
Definition world : World Fake.Host Fake.Remote :=
  Fake.world (Fake.keyed_host "wg0" "KEY") [Fake.ok_reply body].

(** The server answers 500. *)
Definition world_500 : World Fake.Host Fake.Remote :=
  Fake.world (Fake.keyed_host "wg0" "KEY")
             [Fake.status_reply 500 "500 Internal Server Error"].

Definition ip_10_0_0_5 : net.IPNet :=
  net.mkIPNet [10; 0; 0; 5]%Z [255; 255; 255; 255]%Z.
Definition net_10_0_1_0 : net.IPNet :=
  net.mkIPNet [10; 0; 1; 0]%Z [255; 255; 255; 0]%Z.
Definition net_10_0_2_0 : net.IPNet :=
  net.mkIPNet [10; 0; 2; 0]%Z [255; 255; 255; 0]%Z.

(** The reply of the server in [world] and in [world_500]. *)
Definition reply : http.Response.t :=
  http.Response.mk 200 "200 OK" (http.mkReadCloser body None).

Definition reply_500 : http.Response.t :=
  http.Response.mk 500 "500 Internal Server Error"
                   (http.mkReadCloser EmptyString None).

(** [world] after the lease has been received, and after its address
    has been applied. *)
Definition world_received : World Fake.Host Fake.Remote :=
  snd (requestWgConfig Fake.env agent serverUrl token world).

Definition world_addressed : World Fake.Host Fake.Remote :=
  snd (addIpToDev Fake.env agent "10.0.0.5/32" world_received).

(** A server URL that does not parse: it ends in a line feed. *)
Definition bad_url : string := "https://lease.example" ++ newline.

(** An agent for a device the host does not have. *)
Definition stray_agent : Agent.t :=
  Agent.mk "wg1" "pub:KEY" "KEY" NewNetLinkHandle (Some make_chan)
           (Some (TunDevice_of "wg1")).

(** A host before the agent starts: no device yet, 32 random bytes
    waiting; and a host whose device will come up with a stored key. *)
Definition blank_world : World Fake.Host Fake.Remote :=
  Fake.world (Fake.fresh_host [repeat 255%Z 32]) [].

Definition stored_key_world : World Fake.Host Fake.Remote :=
  Fake.world (Fake.mkHost [] [] [] [] [("wg0", "KEY")] []) [].

(** The key generated from 32 bytes 255. *)
Definition generated_key : string :=
  "+P///////////////////////////////////////38=".

(** A lease as the server writes it. *)
Definition json_of (r : Response.t) : string :=
  "{" ++ member "IP" (Response.IP r) ++ ","
  ++ member "AllowedIPs" (Response.AllowedIPs r) ++ ","
  ++ member "PubKey" (Response.PubKey r) ++ ","
  ++ member "Endpoint" (Response.Endpoint r) ++ "}".

(** The server grants a lease whose address has no prefix length, and
    a lease without a peer key. *)
Definition world_bad_address : World Fake.Host Fake.Remote :=
  Fake.world (Fake.keyed_host "wg0" "KEY")
    [Fake.ok_reply
       (json_of (Response.mk "10.0.0.5" "10.0.1.0/24" "abc=" "1.2.3.4:51820"))].

Definition world_no_peer_key : World Fake.Host Fake.Remote :=
  Fake.world (Fake.keyed_host "wg0" "KEY")
    [Fake.ok_reply
       (json_of (Response.mk "10.0.0.5/32" "10.0.1.0/24" EmptyString
                             "1.2.3.4:51820"))].

(** What [GetNewWgLease] returns when the server answers 500. *)
Definition rejected_result
  : option wgtypes.PeerConfig * list string * error :=
  match GetNewWgLease Fake.env agent serverUrl token world_500 with
  | (Returns r, _) => r
  | (Panics _, _) => (None, [], None)
  end.

(** The scenario with the routes installed by the lease call itself:
    [GetNewWgLease] returns the peer and the allowed IPs, and by the
    time it returns the address and a route for each of the two prefixes
    have been installed. *)
Definition lease_call_installs_routes : Prop :=
  let (out, w') := GetNewWgLease Fake.env agent serverUrl token world in
  out = Returns (Some peer, ["10.0.1.0/24"; "10.0.2.0/24"], None)
  /\ In (Call_UpdateIP "wg0" ip_10_0_0_5) (trace w')
  /\ In (Call_AddRoute "wg0" net_10_0_1_0) (trace w')
  /\ In (Call_AddRoute "wg0" net_10_0_2_0) (trace w').

End Scenario.

(* ===================================================================== *)
(** * Further observations on traces *)
(* ===================================================================== *)

Definition sends_request (e : Event) : bool :=
  match e with
  | Call_Do _ => true
  | _ => false
  end.

Definition closes_body (e : Event) : bool :=
  match e with
  | Call_Body_Close => true
  | _ => false
  end.

Definition installs_address (e : Event) : bool :=
  match e with
  | Call_UpdateIP _ _ => true
  | _ => false
  end.

Definition builds_peer (e : Event) : bool :=
  match e with
  | Call_newPeerConfig _ _ _ _ => true
  | _ => false
  end.

Definition starts_run_loop (e : Event) : bool :=
  match e with
  | Go_Run _ => true
  | _ => false
  end.

(** Calls that go to the lease server. *)
Definition talks_to_server (e : Event) : bool :=
  match e with
  | Call_NewRequest _ _ _ | Call_Do _ | Call_Body_Close => true
  | _ => false
  end.

(** The calls made between world [w] and the later world [w']. *)
Definition calls_since {H N : Type} (w w' : World H N) : list Event :=
  skipn (length (trace w)) (trace w').

(* ===================================================================== *)
(** * agent.go, lines 182-184: [Stop] *)
(* ===================================================================== *)



(* ===================================================================== *)
(** * A test double with faults *)
(* ===================================================================== *)

(** The host of [Fake] with switches that make the link or the key store
    refuse an operation. *)
Module Faulty.

Record Faults : Type := mkFaults {
  link_up_fails : bool;
  read_fails : bool;
  reread_fails : bool;
  set_key_fails : bool
}.

Definition not_permitted : string := "operation not permitted".

Definition EnsureLinkUp (f : Faults) (h : netlinkHandle) (name : string)
  (s : Fake.Host) : error * Fake.Host :=
  if link_up_fails f then (Some not_permitted, s)
  else Fake.EnsureLinkUp h name s.

(** [reread_fails]: the keys cannot be read once a key is stored. *)
Definition getKeys (f : Faults) (name : string) (s : Fake.Host)
  : (string * string * error) * Fake.Host :=
  if read_fails f then ((EmptyString, EmptyString, Some not_permitted), s)
  else
    match Fake.lookup name (Fake.keys s) with
    | Some _ =>
        if reread_fails f
        then ((EmptyString, EmptyString, Some not_permitted), s)
        else Fake.getKeys name s
    | None => Fake.getKeys name s
    end.

Definition setPrivateKey (f : Faults) (name privKey : string) (s : Fake.Host)
  : error * Fake.Host :=
  if set_key_fails f then (Some not_permitted, s)
  else Fake.setPrivateKey name privKey s.

Definition env (f : Faults) : Env Fake.Host Fake.Remote :=
  mkEnv Fake.startTunDevice (EnsureLinkUp f) Fake.UpdateIP Fake.AddRoute
        (getKeys f) (setPrivateKey f) Fake.newPeerConfig Fake.ParseIPNet
        Fake.IPNet_String Fake.rand_Read Fake.url_Parse Fake.json_string
        Fake.json_Unmarshal Fake.client_Do.

Definition link_down : Faults := mkFaults true false false false.
Definition unreadable : Faults := mkFaults false true false false.

End Faulty.

(** Further worlds for the agent of the scenario. *)
Module Cases.

(** The server cannot be reached. *)
Definition unreachable : World Fake.Host Fake.Remote :=
  Fake.world (Fake.keyed_host "wg0" "KEY") [].

(** The server answers 200 and the connection breaks while the body is
    read. *)
Definition broken_reply : http.Response.t :=
  http.Response.mk 200 "200 OK"
    (http.mkReadCloser "{" (Some "unexpected EOF")).

Definition broken : World Fake.Host Fake.Remote :=
  Fake.world (Fake.keyed_host "wg0" "KEY") [Ok broken_reply].

(** The server answers 200 with a page that is not JSON. *)
Definition garbled : World Fake.Host Fake.Remote :=
  Fake.world (Fake.keyed_host "wg0" "KEY") [Fake.ok_reply "<html>"].

(** The server grants a lease without allowed IPs. *)
Definition no_allowed_ips : World Fake.Host Fake.Remote :=
  Fake.world (Fake.keyed_host "wg0" "KEY")
    [Fake.ok_reply
       (Scenario.json_of
          (Response.mk "10.0.0.5/32" EmptyString "abc=" "1.2.3.4:51820"))].

(** The server grants the lease of the scenario to an agent whose device
    the host does not have. *)
Definition stray : World Fake.Host Fake.Remote := Scenario.world.

(** A host without a device and without entropy. *)
Definition no_entropy : World Fake.Host Fake.Remote :=
  Fake.world (Fake.fresh_host []) [].

(** The agent [NewAgent] builds in a world, and the world it leaves. *)
Definition built {H N : Type} (E : Env H N) (deviceName : string)
  (w : World H N) : Agent.t :=
  match NewAgent E deviceName w with
  | (Returns (a, _), _) => a
  | (Panics _, _) =>
      Agent.mk deviceName EmptyString EmptyString NewNetLinkHandle None None
  end.

Definition after_build {H N : Type} (E : Env H N) (deviceName : string)
  (w : World H N) : World H N :=
  snd (NewAgent E deviceName w).

End Cases.

(* ===================================================================== *)
(** * The matchbox groups of the provisioning configuration *)
(* ===================================================================== *)

(** The second source file declares, for the server peers it is given,
    one matchbox profile per peer and one matchbox group per MAC
    address.  Lists are Terraform lists, indexed from 0. *)
Module terraform.

(** An element of [var.wiresteward_server_peers], with the attribute the
    groups read. *)
Record server_peer : Type := mkPeer {
  mac_addresses : list string
}.

(** A number inside a string template. *)
Definition decimal (n : nat) : string :=
  NilZero.string_of_uint (Nat.to_uint n).

(** The template [${var.role}-${count.index}], the name of profile and
    of group number [index]. *)
Definition indexed_name (role : string) (index : nat) : string :=
  role ++ "-" ++ decimal index.

(** An element of [local.groups]: [{ mac = ..., profile = ... }], where
    the profile is [matchbox_profile.wiresteward[index]], kept by its
    index and its name. *)
Record group_entry : Type := mkEntry {
  mac : string;
  profile_index : nat;
  profile_name : string
}.

(** The inner [for]: one entry for each MAC address of peer [index]. *)
Definition peer_entries (role : string) (index : nat) (p : server_peer)
  : list group_entry :=
  map (fun mac_address => mkEntry mac_address index (indexed_name role index))
      (mac_addresses p).

(** The outer [for index, _ in var.wiresteward_server_peers], the peers
    from number [index] on. *)
Fixpoint entries_from (role : string) (index : nat) (peers : list server_peer)
  : list (list group_entry) :=
  match peers with
  | [] => []
  | p :: rest => peer_entries role index p :: entries_from role (S index) rest
  end.

(** [local.groups = flatten([...])] *)
Definition groups (role : string) (peers : list server_peer)
  : list group_entry :=
  concat (entries_from role 0 peers).

(** [resource "matchbox_group" "wiresteward"], instance [count.index]. *)
Record matchbox_group : Type := mkGroup {
  name : string;
  profile : string;
  selector_mac : string;
  metadata_ignition_endpoint : string
}.

Fixpoint groups_from (role endpoint : string) (index : nat)
  (entries : list group_entry) : list matchbox_group :=
  match entries with
  | [] => []
  | g :: rest =>
      mkGroup (indexed_name role index) (profile_name g) (mac g)
              (endpoint ++ "/ignition")
      :: groups_from role endpoint (S index) rest
  end.

(** All instances, [count = length(local.groups)] of them. *)
Definition matchbox_groups (role endpoint : string)
  (peers : list server_peer) : list matchbox_group :=
  groups_from role endpoint 0 (groups role peers).

(** The names of [resource "matchbox_profile" "wiresteward"], one for
    each peer. *)
Definition matchbox_profile_names (role : string) (peers : list server_peer)
  : list string :=
  map (indexed_name role) (seq 0 (length peers)).

End terraform.

(* ===================================================================== *)
(** * Facts about [strings.Split] *)
(* ===================================================================== *)

Section SplitFacts.

Variable sep : ascii.

Lemma Split_not_nil (s : string) : strings.Split s sep <> [].
Proof.
  destruct s as [|c s]; simpl; [discriminate|].
  destruct (Ascii.eqb c sep); [discriminate|].
  destruct (strings.Split s sep); discriminate.
Qed.

Lemma Split_length (s : string) :
  length (strings.Split s sep) = strings.Count s sep + 1.
Proof.
  induction s as [|c s IH]; simpl; [reflexivity|].
  destruct (Ascii.eqb c sep); simpl.
  - now rewrite IH.
  - destruct (strings.Split s sep) eqn:Hs; simpl in *; lia.
Qed.

Lemma Join_cons (x y : string) (l : list string) :
  strings.Join (x :: y :: l) sep = x ++ String sep (strings.Join (y :: l) sep).
Proof. reflexivity. Qed.

Lemma Join_Split (s : string) : strings.Join (strings.Split s sep) sep = s.
Proof.
  induction s as [|c s IH]; [reflexivity|].
  cbn [strings.Split].
  destruct (Ascii.eqb_spec c sep) as [->|Hc].
  - pose proof (Split_not_nil s) as Hn.
    destruct (strings.Split s sep) as [|y l]; [contradiction|].
    rewrite Join_cons. cbn [append]. now rewrite IH.
  - pose proof (Split_not_nil s) as Hn.
    destruct (strings.Split s sep) as [|y l]; [contradiction|].
    destruct l as [|z l].
    + cbn [strings.Join] in *. now rewrite IH.
    + rewrite Join_cons in *. cbn [append]. now rewrite IH.
Qed.

Lemma Split_no_sep (s : string) : Forall (no_sep sep) (strings.Split s sep).
Proof.
  induction s as [|c s IH]; simpl.
  - constructor; [reflexivity | constructor].
  - destruct (Ascii.eqb c sep) eqn:Hc.
    + constructor; [reflexivity | exact IH].
    + destruct (strings.Split s sep) as [|y l].
      * constructor; [|constructor]. unfold no_sep. simpl. now rewrite Hc.
      * inversion IH; subst. constructor; [|assumption].
        unfold no_sep in *. simpl. now rewrite Hc.
Qed.

Lemma Split_entry (x : string) :
  no_sep sep x -> strings.Split x sep = [x].
Proof.
  unfold no_sep. induction x as [|c x IH]; simpl; [reflexivity|].
  destruct (Ascii.eqb c sep); [discriminate|].
  intros Hx. now rewrite IH.
Qed.

Lemma Split_entry_sep (x rest : string) :
  no_sep sep x ->
  strings.Split (x ++ String sep rest) sep = x :: strings.Split rest sep.
Proof.
  unfold no_sep. induction x as [|c x IH]; simpl.
  - now rewrite Ascii.eqb_refl.
  - destruct (Ascii.eqb c sep); [discriminate|].
    intros Hx. now rewrite IH.
Qed.

(** A list of entries without separators, empty entries included, is
    what splitting its join gives back. *)
Lemma Split_Join (l : list string) :
  l <> [] -> Forall (no_sep sep) l ->
  strings.Split (strings.Join l sep) sep = l.
Proof.
  induction l as [|x l IH]; [congruence|].
  intros _ Hl. inversion Hl as [|? ? Hx Hl']; subst.
  destruct l as [|y l].
  - simpl. now apply Split_entry.
  - rewrite Join_cons, Split_entry_sep by assumption.
    f_equal. apply IH; [discriminate | assumption].
Qed.

End SplitFacts.

(* ===================================================================== *)
(** * A generated private key is never the empty key *)
(* ===================================================================== *)

Lemma encode_A (i : Z) :
  (0 <= i < 64)%Z -> base64.encode i = "A"%char -> i = 0%Z.
Proof.
  intros Hi. unfold base64.encode.
  assert (Hn : (Z.to_nat i < 64)%nat) by lia.
  assert (H0 : Z.to_nat i = 0%nat -> i = 0%Z) by lia.
  revert Hn H0. generalize (Z.to_nat i) as n. intros n Hn H0.
  do 64 (destruct n as [|n]; [ solve [auto | simpl; discriminate] |]).
  lia.
Qed.

Lemma EncodeToString_skip (b0 b1 b2 : Z) (rest : list Z) (n : nat) :
  String.get (4 + n) (base64.EncodeToString (b0 :: b1 :: b2 :: rest))
  = String.get n (base64.EncodeToString rest).
Proof. reflexivity. Qed.

Lemma second_char_not_A (b0 b1 : Z) :
  Z.testbit b1 6 = true ->
  String.get 1 (base64.EncodeToString [b0; b1]) <> Some "A"%char.
Proof.
  intros Hbit. cbn [base64.EncodeToString String.get].
  set (v := Z.land _ 63). intros Heq.
  assert (Hv : (0 <= v < 64)%Z).
  { subst v. change 63%Z with (Z.ones 6). rewrite Z.land_ones by lia.
    apply Z.mod_pos_bound. lia. }
  injection Heq as Heq. apply encode_A in Heq; [|exact Hv].
  assert (Hb : Z.testbit v 2 = true).
  { subst v. rewrite Z.land_spec, Z.shiftr_spec by lia.
    rewrite Z.lor_spec, !Z.shiftl_spec by lia.
    change (2 + 12 - 8)%Z with 6%Z. rewrite Hbit.
    now rewrite orb_true_r. }
  rewrite Heq in Hb. discriminate.
Qed.

Lemma clamp_last_bit (key : wgtypes.Key) :
  length key = wgtypes.KeyLen ->
  exists k30 b0 b1,
    wgtypes.clamp key = (k30 ++ [b0; b1])%list /\ length k30 = 30
    /\ Z.testbit b1 6 = true.
Proof.
  intros Hlen. unfold wgtypes.KeyLen in Hlen.
  do 32 (destruct key as [|? key]; [discriminate|]).
  destruct key; [|discriminate].
  unfold wgtypes.clamp. cbn [wgtypes.update].
  eexists [_; _; _; _; _; _; _; _; _; _; _; _; _; _; _;
           _; _; _; _; _; _; _; _; _; _; _; _; _; _; _], _, _.
  split; [reflexivity|]. split; [reflexivity|].
  rewrite Z.lor_spec. now rewrite orb_true_r.
Qed.

Lemma Key_String_clamp (key : wgtypes.Key) :
  length key = wgtypes.KeyLen ->
  wgtypes.Key_String (wgtypes.clamp key) <> emptyKey.
Proof.
  intros Hlen.
  destruct (clamp_last_bit key Hlen) as (k30 & b0 & b1 & -> & Hk & Hbit).
  do 30 (destruct k30 as [|? k30]; [discriminate|]).
  destruct k30; [|discriminate].
  unfold wgtypes.Key_String. intros Heq.
  apply (f_equal (String.get 41)) in Heq.
  cbn [app] in Heq.
  change 41%nat
    with (4 + (4 + (4 + (4 + (4 + (4 + (4 + (4 + (4 + (4 + 1))))))))))%nat
    in Heq at 1.
  rewrite !EncodeToString_skip in Heq.
  exact (@second_char_not_A _ _ Hbit Heq).
Qed.

(* ===================================================================== *)
(** * Facts about the agent's functions *)
(* ===================================================================== *)

Ltac run :=
  unfold call_startTunDevice, go_Run, call_EnsureLinkUp, call_UpdateIP,
    call_AddRoute, call_getKeys, call_setPrivateKey, call_ParseIPNet,
    call_newPeerConfig, call_GeneratePrivateKey, call_NewRequest, call_Do,
    Body_Close, defer, bind, ret, emit, on_host, on_remote, panic;
  cbn [host remote trace fst snd].

Ltac tidy :=
  cbn [host remote trace fst snd]; repeat rewrite <- app_assoc; cbn [app].

Section AgentFacts.

Context {H N : Type} (E : Env H N).

(** ** [requestWgConfig] *)

Lemma json_Marshal_body (a : Agent.t) :
  json_Marshal E (Request.mk (Agent.pubKey a))
  = (lease_request_body E (Agent.pubKey a), None).
Proof. reflexivity. Qed.

Lemma requestWgConfig_unparsed (a : Agent.t) (serverUrl token : string)
  (w : World H N) (e : string) :
  url_Parse E (serverUrl ++ "/newPeerLease") = Some e ->
  requestWgConfig E a serverUrl token w
  = (Panics nil_dereference,
     mkWorld (host w) (remote w)
       (trace w ++ [Call_NewRequest "POST" (serverUrl ++ "/newPeerLease")
                      (lease_request_body E (Agent.pubKey a))])%list).
Proof.
  intros Hurl. unfold requestWgConfig. rewrite json_Marshal_body.
  run. unfold NewRequest. rewrite Hurl. reflexivity.
Qed.

(** What [requestWgConfig] makes of the reply of the server. *)
Lemma requestWgConfig_sent (a : Agent.t) (serverUrl token : string)
  (w : World H N) :
  url_Parse E (serverUrl ++ "/newPeerLease") = None ->
  let sent :=
    (trace w ++ [Call_NewRequest "POST" (serverUrl ++ "/newPeerLease")
                   (lease_request_body E (Agent.pubKey a));
                 Call_Do (lease_request E a serverUrl token)])%list in
  match client_Do E (lease_request E a serverUrl token) (remote w) with
  | (Err e, n') =>
      requestWgConfig E a serverUrl token w
      = (Returns (Response.zero, Some e), mkWorld (host w) n' sent)
  | (Ok resp, n') =>
      exists response err,
        requestWgConfig E a serverUrl token w
        = (Returns (response, err),
           mkWorld (host w) n' (sent ++ [Call_Body_Close])%list)
        /\ (http.Response.StatusCode resp <> 200%Z ->
            response = Response.zero
            /\ err = Some ("Response status: " ++ http.Response.Status resp))
        /\ (http.Response.StatusCode resp = 200%Z ->
            forall e, http.read_error (http.Response.Body resp) = Some e ->
            response = Response.zero
            /\ err = Some ("error reading response body: " ++ e ++ ","))
        /\ (http.Response.StatusCode resp = 200%Z ->
            http.read_error (http.Response.Body resp) = None ->
            (response, err)
            = json_Unmarshal E (http.data (http.Response.Body resp))
                             Response.zero)
  end.
Proof.
  intros Hurl sent. subst sent.
  unfold requestWgConfig. rewrite json_Marshal_body.
  run. unfold NewRequest. rewrite Hurl.
  unfold Request_Header_Set.
  cbn [http.Request.Method http.Request.URL http.Request.Header
       http.Request.Body http.Header_Set String.eqb Ascii.eqb Bool.eqb].
  fold (lease_request E a serverUrl token). cbn [host remote trace].
  destruct (client_Do E (lease_request E a serverUrl token) (remote w))
    as [[resp|e] n'] eqn:Hdo; cbn [host remote trace].
  2: { tidy. reflexivity. }
  destruct (Z.eqb_spec (http.Response.StatusCode resp) 200) as [Hs|Hs];
    cbn [negb].
  - unfold ioutil.ReadAll.
    destruct (http.read_error (http.Response.Body resp)) as [e|] eqn:Hread.
    + eexists _, _. split; [tidy; reflexivity|].
      split; [intros Hne; contradiction|].
      split; [intros _ e' He'; injection He' as <-; auto|].
      intros _ Hnone; discriminate.
    + destruct (json_Unmarshal E (http.data (http.Response.Body resp))
                  Response.zero) as [response [e|]] eqn:Hjson.
      * eexists _, _. split; [tidy; reflexivity|].
        split; [intros Hne; contradiction|].
        split; [intros _ e' He'; discriminate|].
        intros _ _. reflexivity.
      * eexists _, _. split; [tidy; reflexivity|].
        split; [intros Hne; contradiction|].
        split; [intros _ e' He'; discriminate|].
        intros _ _. reflexivity.
  - eexists _, _. split; [tidy; reflexivity|].
    split; [auto|]. split; intros; contradiction.
Qed.

(** Every request [requestWgConfig] hands to the HTTP client is the
    lease request for the agent's public key. *)
Lemma requestWgConfig_calls (a : Agent.t) (serverUrl token : string)
  (w : World H N) :
  exists calls,
    trace (snd (requestWgConfig E a serverUrl token w))
    = (trace w ++ calls)%list
    /\ forall req, In (Call_Do req) calls ->
                   req = lease_request E a serverUrl token.
Proof.
  destruct (url_Parse E (serverUrl ++ "/newPeerLease")) as [e|] eqn:Hurl.
  - rewrite (requestWgConfig_unparsed a serverUrl token w Hurl).
    eexists. split; [reflexivity|].
    intros req [Hreq|[]]. discriminate.
  - pose proof (requestWgConfig_sent a serverUrl token w Hurl) as Hsent.
    cbv zeta in Hsent.
    destruct (client_Do E (lease_request E a serverUrl token) (remote w))
      as [[resp|e] n'].
    + destruct Hsent as (response & err & -> & _). tidy.
      eexists. split; [reflexivity|].
      intros req [Hreq|[Hreq|[Hreq|[]]]]; try discriminate.
      now injection Hreq as <-.
    + rewrite Hsent. tidy.
      eexists. split; [reflexivity|].
      intros req [Hreq|[Hreq|[]]]; try discriminate.
      now injection Hreq as <-.
Qed.

Lemma requestWgConfig_privKey (a : Agent.t) (privKey : string)
  (serverUrl token : string) :
  requestWgConfig E (Agent.set_privKey a privKey) serverUrl token
  = requestWgConfig E a serverUrl token.
Proof. reflexivity. Qed.

(** ** [addIpToDev] *)

Lemma addIpToDev_run (a : Agent.t) (ip : string) (w : World H N) :
  addIpToDev E a ip w
  = match ParseIPNet E ip with
    | Err e =>
        (Returns (Some ("Cannot parse offered ip net: " ++ e)),
         mkWorld (host w) (remote w) (trace w ++ [Call_ParseIPNet ip])%list)
    | Ok devIP =>
        let (err, h') :=
          UpdateIP E (Agent.netlinkHandle a) (Agent.device a) devIP (host w) in
        (Returns err,
         mkWorld h' (remote w)
           (trace w ++
            [Call_ParseIPNet ip;
             Log_Printf ("Configuring offered ip: " ++ IPNet_String E devIP
                         ++ " on dev: " ++ Agent.device a ++ newline);
             Call_UpdateIP (Agent.device a) devIP])%list)
    end.
Proof.
  unfold addIpToDev. run.
  destruct (ParseIPNet E ip) as [devIP|e]; [|reflexivity]. tidy.
  destruct (UpdateIP E (Agent.netlinkHandle a) (Agent.device a) devIP (host w))
    as [[e|] h']; tidy; reflexivity.
Qed.

(** ** [GetNewWgLease] *)

Lemma GetNewWgLease_run (a : Agent.t) (serverUrl token : string)
  (w : World H N) :
  GetNewWgLease E a serverUrl token w
  = match requestWgConfig E a serverUrl token w with
    | (Panics msg, w1) => (Panics msg, w1)
    | (Returns (_, Some e), w1) =>
        (Returns (Some wgtypes.PeerConfig_zero, [], Some e), w1)
    | (Returns (resp, None), w1) =>
        match addIpToDev E a (Response.IP resp) w1 with
        | (Panics msg, w2) => (Panics msg, w2)
        | (Returns (Some e), w2) =>
            (Returns (Some wgtypes.PeerConfig_zero, [], Some e), w2)
        | (Returns None, w2) =>
            let allowed_ips :=
              strings.Split (Response.AllowedIPs resp) ","%char in
            let w3 :=
              mkWorld (host w2) (remote w2)
                (trace w2 ++
                 [Call_newPeerConfig (Response.PubKey resp) EmptyString
                    (Response.Endpoint resp) allowed_ips])%list in
            match newPeerConfig E (Response.PubKey resp) EmptyString
                    (Response.Endpoint resp) allowed_ips with
            | (_, Some e) =>
                (Returns (Some wgtypes.PeerConfig_zero, [], Some e), w3)
            | (peer, None) => (Returns (peer, allowed_ips, None), w3)
            end
        end
    end.
Proof.
  unfold GetNewWgLease. unfold bind at 1.
  destruct (requestWgConfig E a serverUrl token w)
    as [[[resp [e|]]|msg] w1]; try reflexivity.
  unfold bind at 1.
  destruct (addIpToDev E a (Response.IP resp) w1) as [[[e|]|msg] w2];
    try reflexivity.
  run.
  destruct (newPeerConfig E (Response.PubKey resp) EmptyString
              (Response.Endpoint resp)
              (strings.Split (Response.AllowedIPs resp) ","))
    as [peer [e|]]; reflexivity.
Qed.

(** A lease the server rejects. *)
Lemma GetNewWgLease_status (a : Agent.t) (serverUrl token : string)
  (w : World H N) (resp : http.Response.t) (n' : N) :
  url_Parse E (serverUrl ++ "/newPeerLease") = None ->
  client_Do E (lease_request E a serverUrl token) (remote w) = (Ok resp, n') ->
  http.Response.StatusCode resp <> 200%Z ->
  GetNewWgLease E a serverUrl token w
  = (Returns (Some wgtypes.PeerConfig_zero, [],
              Some ("Response status: " ++ http.Response.Status resp)),
     mkWorld (host w) n'
       (trace w ++
        [Call_NewRequest "POST" (serverUrl ++ "/newPeerLease")
           (lease_request_body E (Agent.pubKey a));
         Call_Do (lease_request E a serverUrl token);
         Call_Body_Close])%list).
Proof.
  intros Hurl Hdo Hstatus. rewrite GetNewWgLease_run.
  pose proof (requestWgConfig_sent a serverUrl token w Hurl) as Hsent.
  cbv zeta in Hsent. rewrite Hdo in Hsent.
  destruct Hsent as (response & err & -> & Hrej & _).
  destruct (Hrej Hstatus) as [-> ->]. tidy. reflexivity.
Qed.

(** A lease the server grants. *)
Lemma requestWgConfig_granted (a : Agent.t) (serverUrl token : string)
  (w : World H N) (resp : http.Response.t) (n' : N) (lease : Response.t) :
  url_Parse E (serverUrl ++ "/newPeerLease") = None ->
  client_Do E (lease_request E a serverUrl token) (remote w) = (Ok resp, n') ->
  http.Response.StatusCode resp = 200%Z ->
  http.read_error (http.Response.Body resp) = None ->
  json_Unmarshal E (http.data (http.Response.Body resp)) Response.zero
  = (lease, None) ->
  requestWgConfig E a serverUrl token w
  = (Returns (lease, None),
     mkWorld (host w) n'
       (trace w ++
        [Call_NewRequest "POST" (serverUrl ++ "/newPeerLease")
           (lease_request_body E (Agent.pubKey a));
         Call_Do (lease_request E a serverUrl token);
         Call_Body_Close])%list).
Proof.
  intros Hurl Hdo Hstatus Hread Hjson.
  pose proof (requestWgConfig_sent a serverUrl token w Hurl) as Hsent.
  cbv zeta in Hsent. rewrite Hdo in Hsent.
  destruct Hsent as (response & err & -> & _ & _ & Hok).
  specialize (Hok Hstatus Hread). rewrite Hjson in Hok.
  injection Hok as -> ->. tidy. reflexivity.
Qed.

(** ** [addRoutesForAllowedIps] *)

Lemma addRoutes_cons (a : Agent.t) (aip : string) (rest : list string)
  (w : World H N) :
  addRoutesForAllowedIps E a (aip :: rest) w
  = match ParseIPNet E aip with
    | Err e =>
        (Returns (Some ("Cannot parse ip: " ++ aip ++ ": " ++ e)),
         mkWorld (host w) (remote w) (trace w ++ [Call_ParseIPNet aip])%list)
    | Ok dst =>
        let calls :=
          [Call_ParseIPNet aip;
           Log_Printf ("Adding route: " ++ IPNet_String E dst ++ " on dev "
                       ++ Agent.device a ++ newline);
           Call_AddRoute (Agent.device a) dst] in
        match AddRoute E (Agent.netlinkHandle a) (Agent.device a) dst (host w)
        with
        | (Some e, h') =>
            (Returns (Some ("Eror adding route " ++ IPNet_String E dst
                            ++ " via " ++ Agent.device a ++ ": " ++ e)),
             mkWorld h' (remote w) (trace w ++ calls)%list)
        | (None, h') =>
            addRoutesForAllowedIps E a rest
              (mkWorld h' (remote w) (trace w ++ calls)%list)
        end
    end.
Proof.
  cbn [addRoutesForAllowedIps]. run.
  destruct (ParseIPNet E aip) as [dst|e]; [|reflexivity]. tidy.
  destruct (AddRoute E (Agent.netlinkHandle a) (Agent.device a) dst (host w))
    as [[e|] h']; tidy; reflexivity.
Qed.

(** Prefixes are handled one after the other: the second list is only
    looked at when the first went through without an error. *)
Lemma addRoutes_app (a : Agent.t) (l1 l2 : list string) (w : World H N) :
  addRoutesForAllowedIps E a (l1 ++ l2)%list w
  = match addRoutesForAllowedIps E a l1 w with
    | (Returns None, w1) => addRoutesForAllowedIps E a l2 w1
    | other => other
    end.
Proof.
  revert w. induction l1 as [|aip l1 IH]; intros w; [reflexivity|].
  cbn [app]. rewrite !addRoutes_cons.
  destruct (ParseIPNet E aip) as [dst|e]; [|reflexivity].
  cbv zeta.
  destruct (AddRoute E (Agent.netlinkHandle a) (Agent.device a) dst (host w))
    as [[e|] h']; [reflexivity|].
  apply IH.
Qed.

(** ** [NewAgent] *)

Lemma GeneratePrivateKey_not_empty (h h' : H) (newKey : wgtypes.Key) :
  GeneratePrivateKey E h = (Ok newKey, h') ->
  wgtypes.Key_String newKey <> emptyKey.
Proof.
  unfold GeneratePrivateKey, GenerateKey.
  destruct (rand_Read E wgtypes.KeyLen h) as [[b|e] h1]; [|discriminate].
  unfold wgtypes.NewKey.
  destruct (Nat.eqb_spec (length b) wgtypes.KeyLen) as [Hlen|Hlen];
    [|discriminate].
  intros Heq. injection Heq as <- _. now apply Key_String_clamp.
Qed.

Lemma NewAgent_fetch_run (a : Agent.t) (deviceName : string) (w : World H N) :
  NewAgent_fetch E a deviceName w
  = let '((pubKey, privKey, err), h') := getKeys E deviceName (host w) in
    (Returns (Agent.set_privKey (Agent.set_pubKey a pubKey) privKey, err),
     mkWorld h' (remote w) (trace w ++ [Call_getKeys deviceName])%list).
Proof.
  unfold NewAgent_fetch. run.
  destruct (getKeys E deviceName (host w)) as [[[pubKey privKey] [e|]] h'];
    reflexivity.
Qed.

(** The device has a key: the key step reads the keys a second time and
    does nothing else. *)
Lemma NewAgent_keys_keyed (a : Agent.t) (deviceName : string) (w : World H N)
  (pubKey privKey : string) (h1 : H) :
  getKeys E deviceName (host w) = ((pubKey, privKey, None), h1) ->
  privKey <> emptyKey ->
  NewAgent_keys E a deviceName w
  = NewAgent_fetch E a deviceName
      (mkWorld h1 (remote w) (trace w ++ [Call_getKeys deviceName])%list).
Proof.
  intros Hget Hkey. unfold NewAgent_keys. run. rewrite Hget.
  destruct (String.eqb_spec privKey emptyKey) as [Heq|_]; [contradiction|].
  reflexivity.
Qed.

(** The device has no key: one is generated and set, then the keys are
    read again. *)
Lemma NewAgent_keys_empty (a : Agent.t) (deviceName : string) (w : World H N)
  (pubKey : string) (h1 : H) :
  getKeys E deviceName (host w) = ((pubKey, emptyKey, None), h1) ->
  NewAgent_keys E a deviceName w
  = let t1 := (trace w ++ [Call_getKeys deviceName;
                           Call_GeneratePrivateKey])%list in
    match GeneratePrivateKey E h1 with
    | (Err e, h2) => (Returns (a, Some e), mkWorld h2 (remote w) t1)
    | (Ok newKey, h2) =>
        let a' := Agent.set_privKey a (wgtypes.Key_String newKey) in
        let t2 := (t1 ++ [Call_setPrivateKey (Agent.device a)
                            (wgtypes.Key_String newKey)])%list in
        match setPrivateKey E (Agent.device a) (wgtypes.Key_String newKey) h2
        with
        | (Some e, h3) => (Returns (a', Some e), mkWorld h3 (remote w) t2)
        | (None, h3) =>
            NewAgent_fetch E a' deviceName (mkWorld h3 (remote w) t2)
        end
    end.
Proof.
  intros Hget. unfold NewAgent_keys, SetPrivKey. run. rewrite Hget.
  rewrite String.eqb_refl. tidy.
  destruct (GeneratePrivateKey E h1) as [[newKey|e] h2]; [|reflexivity].
  cbn [Agent.device Agent.privKey Agent.set_privKey]. tidy.
  destruct (setPrivateKey E (Agent.device a) (wgtypes.Key_String newKey) h2)
    as [[e|] h3]; tidy; reflexivity.
Qed.

Lemma NewAgent_run (deviceName : string) (w : World H N) :
  NewAgent E deviceName w
  = match startTunDevice E deviceName make_chan (host w) with
    | ((_, Some e), h1) =>
        (Returns (Agent.mk deviceName EmptyString EmptyString
                           NewNetLinkHandle None None,
                  Some ("Error starting wg device: " ++ deviceName ++ ": "
                        ++ e)),
         mkWorld h1 (remote w)
           (trace w ++ [Call_startTunDevice deviceName make_chan])%list)
    | ((tundev, None), h1) =>
        let a := Agent.mk deviceName EmptyString EmptyString
                          NewNetLinkHandle (Some make_chan) tundev in
        let t := (trace w ++ [Call_startTunDevice deviceName make_chan;
                              Go_Run tundev;
                              Call_EnsureLinkUp deviceName])%list in
        match EnsureLinkUp E NewNetLinkHandle deviceName h1 with
        | (Some e, h2) => (Returns (a, Some e), mkWorld h2 (remote w) t)
        | (None, h2) => NewAgent_keys E a deviceName (mkWorld h2 (remote w) t)
        end
    end.
Proof.
  unfold NewAgent. run.
  destruct (startTunDevice E deviceName make_chan (host w))
    as [[tundev [e|]] h1]; [reflexivity|].
  cbn [Agent.set_stop Agent.set_tundev Agent.device Agent.pubKey
       Agent.privKey Agent.netlinkHandle Agent.stop Agent.tundev]. tidy.
  destruct (EnsureLinkUp E NewNetLinkHandle deviceName h1) as [[e|] h2];
    reflexivity.
Qed.

Lemma count_app (p : Event -> bool) (t1 t2 : list Event) :
  count p (t1 ++ t2)%list = count p t1 + count p t2.
Proof. unfold count. now rewrite filter_app, length_app. Qed.

(** On a device that has a key, the key step is a read: the host is
    left as it was and the agent holds the pair that was read. *)
Lemma NewAgent_keys_read (KS : KeyStore E) (a : Agent.t) (deviceName : string)
  (w : World H N) (pubKey privKey : string) (h' : H) :
  getKeys E deviceName (host w) = ((pubKey, privKey, None), h') ->
  privKey <> emptyKey ->
  NewAgent_keys E a deviceName w
  = (Returns (Agent.set_privKey (Agent.set_pubKey a pubKey) privKey, None),
     mkWorld (host w) (remote w)
       (trace w ++ [Call_getKeys deviceName; Call_getKeys deviceName])%list).
Proof.
  intros Hget Hkey.
  assert (h' = host w) as ->.
  { rewrite <- (getKeys_reads KS deviceName (host w)). now rewrite Hget. }
  rewrite (NewAgent_keys_keyed a deviceName w Hget Hkey).
  rewrite NewAgent_fetch_run. cbn [host remote trace]. rewrite Hget.
  tidy. reflexivity.
Qed.

(* ===================================================================== *)
(** * The claims *)
(* ===================================================================== *)

(** C1, as the code has it.  When the server grants the lease of the
    scenario, [GetNewWgLease] assigns 10.0.0.5/32 to the device and
    returns the peer configuration (public key abc=, endpoint
    1.2.3.4:51820, the two allowed IPs) together with the list of the two
    prefixes; it makes no call that installs a route.  The routes for
    10.0.1.0/24 and 10.0.2.0/24 are installed, in this order, by
    [addRoutesForAllowedIps] when it is called on the returned list. *)
Theorem lease_scenario_routes_left_to_caller
  (PC : PeerConfigFromLease E) (a : Agent.t) (serverUrl token : string)
  (w : World H N) (resp : http.Response.t) (n' : N) (ip : net.IPNet) (h1 : H) :
  url_Parse E (serverUrl ++ "/newPeerLease") = None ->
  client_Do E (lease_request E a serverUrl token) (remote w) = (Ok resp, n') ->
  http.Response.StatusCode resp = 200%Z ->
  http.read_error (http.Response.Body resp) = None ->
  json_Unmarshal E (http.data (http.Response.Body resp)) Response.zero
  = (Scenario.lease, None) ->
  ParseIPNet E "10.0.0.5/32" = Ok ip ->
  UpdateIP E (Agent.netlinkHandle a) (Agent.device a) ip (host w)
  = (None, h1) ->
  snd (newPeerConfig E "abc=" EmptyString "1.2.3.4:51820"
         ["10.0.1.0/24"; "10.0.2.0/24"]) = None ->
  exists calls,
    let w1 := mkWorld h1 n' (trace w ++ calls)%list in
    GetNewWgLease E a serverUrl token w
    = (Returns (Some Scenario.peer, ["10.0.1.0/24"; "10.0.2.0/24"], None), w1)
    /\ In (Call_UpdateIP (Agent.device a) ip) calls
    /\ count installs_route calls = 0
    /\ forall d1 d2 h2 h3,
         ParseIPNet E "10.0.1.0/24" = Ok d1 ->
         ParseIPNet E "10.0.2.0/24" = Ok d2 ->
         AddRoute E (Agent.netlinkHandle a) (Agent.device a) d1 h1
         = (None, h2) ->
         AddRoute E (Agent.netlinkHandle a) (Agent.device a) d2 h2
         = (None, h3) ->
         exists routes,
           addRoutesForAllowedIps E a ["10.0.1.0/24"; "10.0.2.0/24"] w1
           = (Returns None, mkWorld h3 n' (trace w1 ++ routes)%list)
           /\ filter installs_route routes
              = [Call_AddRoute (Agent.device a) d1;
                 Call_AddRoute (Agent.device a) d2].
Proof.
  intros Hurl Hdo Hstatus Hread Hjson Hparse Hupdate Hpeer.
  rewrite GetNewWgLease_run.
  rewrite (requestWgConfig_granted a serverUrl token w Hurl Hdo Hstatus
             Hread Hjson).
  rewrite addIpToDev_run. unfold Scenario.lease, Scenario.peer.
  cbn [Response.IP Response.AllowedIPs Response.PubKey Response.Endpoint
       host remote trace].
  rewrite Hparse, Hupdate.
  change (strings.Split "10.0.1.0/24,10.0.2.0/24" ",")
    with ["10.0.1.0/24"; "10.0.2.0/24"].
  destruct (newPeerConfig E "abc=" EmptyString "1.2.3.4:51820"
              ["10.0.1.0/24"; "10.0.2.0/24"]) as [peer err] eqn:Hnew.
  cbn [snd] in Hpeer. subst err.
  rewrite (PC _ _ _ _ _ Hnew). tidy.
  eexists. cbv zeta. split; [reflexivity|].
  split; [cbn; tauto|]. split; [reflexivity|].
  intros d1 d2 h2 h3 Hd1 Hd2 Hr1 Hr2.
  rewrite addRoutes_cons, Hd1. cbn [host remote trace]. rewrite Hr1.
  rewrite addRoutes_cons, Hd2. cbn [host remote trace]. rewrite Hr2.
  cbn [addRoutesForAllowedIps]. unfold ret.
  eexists. tidy. split; reflexivity.
Qed.

(** C2.  When the lease server answers with a status other than 200,
    [GetNewWgLease] returns an error that carries the status text of the
    response; the host is left as it was and none of the calls made
    installs an address or a route. *)
Theorem lease_rejected_installs_nothing
  (a : Agent.t) (serverUrl token : string) (w : World H N)
  (resp : http.Response.t) (n' : N) :
  url_Parse E (serverUrl ++ "/newPeerLease") = None ->
  client_Do E (lease_request E a serverUrl token) (remote w) = (Ok resp, n') ->
  http.Response.StatusCode resp <> 200%Z ->
  exists w' calls,
    GetNewWgLease E a serverUrl token w
    = (Returns (Some wgtypes.PeerConfig_zero, [],
                Some ("Response status: " ++ http.Response.Status resp)), w')
    /\ host w' = host w
    /\ trace w' = (trace w ++ calls)%list
    /\ count installs calls = 0.
Proof.
  intros Hurl Hdo Hstatus.
  rewrite (GetNewWgLease_status a serverUrl token w Hurl Hdo Hstatus).
  eexists _, _. split; [reflexivity|]. repeat split.
Qed.

(** C3.  On a device whose private key is the empty key, a successful
    [NewAgent] generates a key exactly once, sets it on the device
    before it reads the keys again, and the private key it then reads
    and keeps in the agent is the generated key, not the empty key; it
    is also the key a later read finds on the device. *)
Theorem NewAgent_generates_key_once
  (KS : KeyStore E) (deviceName : string) (w w' : World H N)
  (tundev : option TunDevice) (h1 h2 h3 : H) (pubKey0 : string) (a : Agent.t) :
  startTunDevice E deviceName make_chan (host w) = ((tundev, None), h1) ->
  EnsureLinkUp E NewNetLinkHandle deviceName h1 = (None, h2) ->
  getKeys E deviceName h2 = ((pubKey0, emptyKey, None), h3) ->
  NewAgent E deviceName w = (Returns (a, None), w') ->
  exists newKey h4 h5,
    GeneratePrivateKey E h3 = (Ok newKey, h4)
    /\ setPrivateKey E deviceName (wgtypes.Key_String newKey) h4 = (None, h5)
    /\ host w' = h5
    /\ getKeys E deviceName (host w')
       = ((Agent.pubKey a, Agent.privKey a, None), host w')
    /\ trace w'
       = (trace w ++
          [Call_startTunDevice deviceName make_chan;
           Go_Run tundev;
           Call_EnsureLinkUp deviceName;
           Call_getKeys deviceName;
           Call_GeneratePrivateKey;
           Call_setPrivateKey deviceName (wgtypes.Key_String newKey);
           Call_getKeys deviceName])%list
    /\ count generates_key (trace w') = count generates_key (trace w) + 1
    /\ Agent.privKey a = wgtypes.Key_String newKey
    /\ Agent.privKey a <> emptyKey.
Proof.
  intros Hstart Hup Hget Hnew.
  rewrite NewAgent_run, Hstart in Hnew. cbv zeta in Hnew. rewrite Hup in Hnew.
  erewrite NewAgent_keys_empty in Hnew by (cbn [host]; exact Hget).
  cbv zeta in Hnew. cbn [host remote trace Agent.device] in Hnew.
  destruct (GeneratePrivateKey E h3) as [[newKey|e] h4] eqn:Hgen;
    [|discriminate].
  destruct (setPrivateKey E deviceName (wgtypes.Key_String newKey) h4)
    as [[e|] h5] eqn:Hset; [discriminate|].
  rewrite NewAgent_fetch_run in Hnew. cbn [host remote trace] in Hnew.
  destruct (getKeys E deviceName h5) as [[[pubKey privKey] err] h6] eqn:Hread.
  pose proof (getKeys_reads KS deviceName h5) as Hsame.
  rewrite Hread in Hsame. cbn [snd] in Hsame. subst h6.
  injection Hnew as <- -> <-.
  cbn [Agent.pubKey Agent.privKey Agent.set_pubKey Agent.set_privKey
       host remote trace].
  pose proof (getKeys_after_set KS deviceName newKey h4 Hset Hread) as ->.
  exists newKey, h4, h5.
  split; [reflexivity|]. split; [exact Hset|]. split; [reflexivity|].
  split; [exact Hread|].
  split; [tidy; reflexivity|].
  split; [tidy; rewrite count_app; reflexivity|].
  split; [reflexivity|].
  now apply (GeneratePrivateKey_not_empty h3 Hgen).
Qed.

(** C4.  Once the lease has been received and its address applied,
    [GetNewWgLease] splits the AllowedIPs string at the commas: the
    list has one entry more than there are commas, its entries joined by
    commas are the string again (so the order is kept, and empty entries
    are neither dropped nor trimmed), and any list of comma-free entries
    with this join is the list.  The list is the argument handed to
    [newPeerConfig], and it is the list returned when [newPeerConfig]
    gives no error. *)
Theorem allowed_ips_split_at_commas
  (a : Agent.t) (serverUrl token : string) (w w1 w2 : World H N)
  (resp : Response.t) :
  requestWgConfig E a serverUrl token w = (Returns (resp, None), w1) ->
  addIpToDev E a (Response.IP resp) w1 = (Returns None, w2) ->
  let allowed_ips := strings.Split (Response.AllowedIPs resp) ","%char in
  length allowed_ips = strings.Count (Response.AllowedIPs resp) ","%char + 1
  /\ strings.Join allowed_ips ","%char = Response.AllowedIPs resp
  /\ (forall l, l <> [] -> Forall (no_sep ","%char) l ->
                strings.Join l ","%char = Response.AllowedIPs resp ->
                allowed_ips = l)
  /\ exists peer err,
       newPeerConfig E (Response.PubKey resp) EmptyString
                     (Response.Endpoint resp) allowed_ips = (peer, err)
       /\ GetNewWgLease E a serverUrl token w
          = (Returns (match err with
                      | None => (peer, allowed_ips, None)
                      | Some e => (Some wgtypes.PeerConfig_zero, [], Some e)
                      end),
             mkWorld (host w2) (remote w2)
               (trace w2 ++
                [Call_newPeerConfig (Response.PubKey resp) EmptyString
                   (Response.Endpoint resp) allowed_ips])%list).
Proof.
  intros Hreq Hip allowed_ips. subst allowed_ips.
  split; [apply Split_length|].
  split; [apply Join_Split|].
  split.
  { intros l Hl Hsep Hjoin. rewrite <- Hjoin. now apply Split_Join. }
  rewrite GetNewWgLease_run, Hreq, Hip. cbv zeta.
  destruct (newPeerConfig E (Response.PubKey resp) EmptyString
              (Response.Endpoint resp)
              (strings.Split (Response.AllowedIPs resp) ","))
    as [peer [e|]]; eexists _, _; split; reflexivity.
Qed.

(** C5.  Every request [requestWgConfig] hands to the HTTP client has
    for body the JSON object whose member pubKey is the agent's public
    key; and the whole call is the same for two agents that differ in
    their private key only. *)
Theorem lease_request_carries_public_key_only
  (a : Agent.t) (serverUrl token : string) (w : World H N) :
  (exists calls,
     trace (snd (requestWgConfig E a serverUrl token w))
     = (trace w ++ calls)%list
     /\ forall req, In (Call_Do req) calls ->
          http.Request.Body req
          = "{" ++ quoted "pubKey" ++ ":" ++ json_string E (Agent.pubKey a)
            ++ "}")
  /\ forall privKey,
       requestWgConfig E (Agent.set_privKey a privKey) serverUrl token w
       = requestWgConfig E a serverUrl token w.
Proof.
  split.
  - destruct (requestWgConfig_calls a serverUrl token w) as (calls & Ht & Hc).
    exists calls. split; [exact Ht|].
    intros req Hreq. now rewrite (Hc req Hreq).
  - intros privKey. now rewrite requestWgConfig_privKey.
Qed.

(** C6.  When [startTunDevice] fails, [NewAgent] returns its error at
    once: the call that failed is the only call made, so the run loop is
    not started, the link is not brought up, and no key is read or
    generated. *)
Theorem NewAgent_stops_when_device_creation_fails
  (deviceName : string) (w : World H N) (tundev : option TunDevice)
  (e : string) (h' : H) :
  startTunDevice E deviceName make_chan (host w) = ((tundev, Some e), h') ->
  NewAgent E deviceName w
  = (Returns (Agent.mk deviceName EmptyString EmptyString NewNetLinkHandle
                       None None,
              Some ("Error starting wg device: " ++ deviceName ++ ": " ++ e)),
     mkWorld h' (remote w)
       (trace w ++ [Call_startTunDevice deviceName make_chan])%list).
Proof.
  intros Hstart. rewrite NewAgent_run, Hstart. reflexivity.
Qed.

(** C7.  [addRoutesForAllowedIps] handles the prefixes in the order of
    the list.  When the prefixes before [aip] went through and [aip]
    fails, in parsing or in the kernel, the call ends there: it returns
    the error of [aip] alone, and the host and the trace are as the
    attempt on [aip] left them, whatever comes after [aip] in the list. *)
Theorem addRoutes_stops_at_first_failure
  (a : Agent.t) (before after : list string) (aip : string)
  (w w1 : World H N) :
  addRoutesForAllowedIps E a before w = (Returns None, w1) ->
  (forall e,
     ParseIPNet E aip = Err e ->
     addRoutesForAllowedIps E a (before ++ aip :: after)%list w
     = (Returns (Some ("Cannot parse ip: " ++ aip ++ ": " ++ e)),
        mkWorld (host w1) (remote w1)
          (trace w1 ++ [Call_ParseIPNet aip])%list))
  /\ (forall dst e h',
        ParseIPNet E aip = Ok dst ->
        AddRoute E (Agent.netlinkHandle a) (Agent.device a) dst (host w1)
        = (Some e, h') ->
        addRoutesForAllowedIps E a (before ++ aip :: after)%list w
        = (Returns (Some ("Eror adding route " ++ IPNet_String E dst
                          ++ " via " ++ Agent.device a ++ ": " ++ e)),
           mkWorld h' (remote w1)
             (trace w1 ++
              [Call_ParseIPNet aip;
               Log_Printf ("Adding route: " ++ IPNet_String E dst
                           ++ " on dev " ++ Agent.device a ++ newline);
               Call_AddRoute (Agent.device a) dst])%list)).
Proof.
  intros Hbefore. split.
  - intros e Hparse.
    rewrite addRoutes_app, Hbefore, addRoutes_cons, Hparse. reflexivity.
  - intros dst e h' Hparse Hroute.
    rewrite addRoutes_app, Hbefore, addRoutes_cons, Hparse. cbv zeta.
    rewrite Hroute. reflexivity.
Qed.

(** C8.  On a device that already has a private key other than the
    empty key, [NewAgent] makes no call that generates or sets a key and
    the agent holds the pair the device had; running the key step again
    reads the keys and changes neither the host nor the agent. *)
Theorem NewAgent_keeps_existing_key
  (KS : KeyStore E) (deviceName : string) (w : World H N)
  (tundev : option TunDevice) (h1 h2 h3 : H) (pubKey privKey : string) :
  startTunDevice E deviceName make_chan (host w) = ((tundev, None), h1) ->
  EnsureLinkUp E NewNetLinkHandle deviceName h1 = (None, h2) ->
  getKeys E deviceName h2 = ((pubKey, privKey, None), h3) ->
  privKey <> emptyKey ->
  let a := Agent.mk deviceName pubKey privKey NewNetLinkHandle
                    (Some make_chan) tundev in
  let calls := [Call_startTunDevice deviceName make_chan;
                Go_Run tundev;
                Call_EnsureLinkUp deviceName;
                Call_getKeys deviceName;
                Call_getKeys deviceName] in
  let w' := mkWorld h2 (remote w) (trace w ++ calls)%list in
  NewAgent E deviceName w = (Returns (a, None), w')
  /\ count generates_key calls = 0
  /\ count writes_key calls = 0
  /\ NewAgent_keys E a deviceName w'
     = (Returns (a, None),
        mkWorld h2 (remote w)
          (trace w' ++
           [Call_getKeys deviceName; Call_getKeys deviceName])%list).
Proof.
  intros Hstart Hup Hget Hkey a calls w'. subst a calls w'.
  split; [|split; [reflexivity|split; [reflexivity|]]].
  - rewrite NewAgent_run, Hstart. cbv zeta. rewrite Hup.
    erewrite NewAgent_keys_read;
      [|exact KS|cbn [host]; exact Hget|exact Hkey].
    tidy. reflexivity.
  - erewrite NewAgent_keys_read;
      [|exact KS|cbn [host]; exact Hget|exact Hkey].
    reflexivity.
Qed.

(** C9.  Whenever [GetNewWgLease] returns an error, whichever of the
    three steps it comes from, the peer configuration it returns with it
    is a pointer to the zero value and the list of allowed IPs is empty. *)
Theorem GetNewWgLease_error_returns_empty
  (a : Agent.t) (serverUrl token : string) (w w' : World H N)
  (peer : option wgtypes.PeerConfig) (allowed_ips : list string) (e : string) :
  GetNewWgLease E a serverUrl token w
  = (Returns (peer, allowed_ips, Some e), w') ->
  peer = Some wgtypes.PeerConfig_zero /\ allowed_ips = [].
Proof.
  rewrite GetNewWgLease_run.
  destruct (requestWgConfig E a serverUrl token w)
    as [[[resp [e1|]]|msg] w1]; try discriminate.
  { intros Heq. injection Heq as <- <- _ _. auto. }
  destruct (addIpToDev E a (Response.IP resp) w1) as [[[e2|]|msg] w2];
    try discriminate.
  { intros Heq. injection Heq as <- <- _ _. auto. }
  cbv zeta.
  destruct (newPeerConfig E (Response.PubKey resp) EmptyString
              (Response.Endpoint resp)
              (strings.Split (Response.AllowedIPs resp) ","))
    as [peer' [e3|]]; try discriminate.
  intros Heq. injection Heq as <- <- _ _. auto.
Qed.

(** C10.  [requestWgConfig] never looks at the error of
    [http.NewRequest].  When building the request fails, the function
    goes on to set a header on the nil request and panics there: nothing
    is sent, and the function returns nothing, so the error of the
    request construction is never its result. *)
Theorem requestWgConfig_ignores_NewRequest_error
  (a : Agent.t) (serverUrl token : string) (w : World H N) (e : string) :
  NewRequest E "POST" (serverUrl ++ "/newPeerLease")
             (fst (json_Marshal E (Request.mk (Agent.pubKey a)))) = Err e ->
  requestWgConfig E a serverUrl token w
  = (Panics nil_dereference,
     mkWorld (host w) (remote w)
       (trace w ++
        [Call_NewRequest "POST" (serverUrl ++ "/newPeerLease")
           (fst (json_Marshal E (Request.mk (Agent.pubKey a))))])%list)
  /\ forall response err w',
       requestWgConfig E a serverUrl token w <> (Returns (response, err), w').
Proof.
  unfold NewRequest.
  destruct (url_Parse E (serverUrl ++ "/newPeerLease")) as [e'|] eqn:Hurl;
    [|discriminate].
  intros _. rewrite (requestWgConfig_unparsed a serverUrl token w Hurl).
  split; [reflexivity | discriminate].
Qed.

End AgentFacts.

(* ===================================================================== *)
(** * The claims on the test double *)
(* ===================================================================== *)

Lemma Fake_KeyStore : KeyStore Fake.env.
Proof.
  constructor.
  - intros deviceName h. cbn. unfold Fake.getKeys.
    destruct (Fake.has_device deviceName h); reflexivity.
  - intros deviceName key h h' pubKey privKey h''. cbn.
    unfold Fake.setPrivateKey, Fake.getKeys.
    destruct (Fake.has_device deviceName h) eqn:Hdev; [|discriminate].
    intros Hset. injection Hset as <-.
    unfold Fake.has_device in *. cbn [Fake.devices Fake.keys Fake.lookup].
    rewrite Hdev, String.eqb_refl.
    intros Hget. now injection Hget as _ <- _.
Qed.

Lemma Fake_PeerConfigFromLease : PeerConfigFromLease Fake.env.
Proof.
  intros publicKey presharedKey endpoint allowedIPs peer. cbn.
  unfold Fake.newPeerConfig.
  destruct (String.eqb publicKey EmptyString); [discriminate|].
  intros Heq. now injection Heq as <-.
Qed.

(** C1 with the routes installed by [GetNewWgLease] does not hold: in
    the scenario the call returns without a route having been
    installed. *)
Lemma lease_call_installs_no_route : ~ Scenario.lease_call_installs_routes.
Proof.
  unfold Scenario.lease_call_installs_routes.
  vm_compute. intros (_ & _ & Hroute & _).
  repeat (destruct Hroute as [Hroute|Hroute]; [discriminate|]).
  exact Hroute.
Qed.

Lemma lease_scenario_routes_left_to_caller_witness :
  exists w1 w2,
    GetNewWgLease Fake.env Scenario.agent Scenario.serverUrl Scenario.token
                  Scenario.world
    = (Returns (Some Scenario.peer, ["10.0.1.0/24"; "10.0.2.0/24"], None), w1)
    /\ Fake.addresses (host w1) = [("wg0", Scenario.ip_10_0_0_5)]
    /\ count installs_route (trace w1) = 0
    /\ addRoutesForAllowedIps Fake.env Scenario.agent
         ["10.0.1.0/24"; "10.0.2.0/24"] w1
       = (Returns None, w2)
    /\ filter installs_route (trace w2)
       = [Call_AddRoute "wg0" Scenario.net_10_0_1_0;
          Call_AddRoute "wg0" Scenario.net_10_0_2_0].
Proof.
  destruct (@lease_scenario_routes_left_to_caller _ _ Fake.env
              Fake_PeerConfigFromLease Scenario.agent Scenario.serverUrl
              Scenario.token Scenario.world Scenario.reply []
              Scenario.ip_10_0_0_5
              (Fake.mkHost ["wg0"] ["wg0"] [("wg0", Scenario.ip_10_0_0_5)] []
                           [("wg0", "KEY")] [])
              eq_refl eq_refl eq_refl eq_refl eq_refl eq_refl eq_refl eq_refl)
    as (calls & Hlease & _ & Hcount & Hroutes).
  destruct (Hroutes Scenario.net_10_0_1_0 Scenario.net_10_0_2_0
              (Fake.mkHost ["wg0"] ["wg0"] [("wg0", Scenario.ip_10_0_0_5)]
                 [("wg0", Scenario.net_10_0_1_0)] [("wg0", "KEY")] [])
              (Fake.mkHost ["wg0"] ["wg0"] [("wg0", Scenario.ip_10_0_0_5)]
                 [("wg0", Scenario.net_10_0_1_0);
                  ("wg0", Scenario.net_10_0_2_0)] [("wg0", "KEY")] [])
              eq_refl eq_refl eq_refl eq_refl)
    as (routes & Hadd & Hfilter).
  eexists _, _. split; [exact Hlease|].
  split; [reflexivity|]. split; [exact Hcount|]. split; [exact Hadd|].
  cbn [trace]. rewrite !filter_app, Hfilter.
  unfold count in Hcount. apply length_zero_iff_nil in Hcount.
  rewrite Hcount.
  reflexivity.
Defined.

Lemma lease_rejected_installs_nothing_witness :
  exists w' calls,
    GetNewWgLease Fake.env Scenario.agent Scenario.serverUrl Scenario.token
                  Scenario.world_500
    = (Returns (Some wgtypes.PeerConfig_zero, [],
                Some "Response status: 500 Internal Server Error"), w')
    /\ host w' = host Scenario.world_500
    /\ trace w' = (trace Scenario.world_500 ++ calls)%list
    /\ count installs calls = 0.
Proof.
  apply (@lease_rejected_installs_nothing _ _ Fake.env Scenario.agent
           Scenario.serverUrl Scenario.token Scenario.world_500
           Scenario.reply_500 []);
    [reflexivity | reflexivity | discriminate].
Defined.

Lemma NewAgent_generates_key_once_witness :
  exists a w',
    NewAgent Fake.env "wg0" Scenario.blank_world = (Returns (a, None), w')
    /\ count generates_key (trace w') = 1
    /\ Agent.privKey a = Scenario.generated_key
    /\ Agent.privKey a <> emptyKey
    /\ Fake.keys (host w') = [("wg0", Scenario.generated_key)].
Proof.
  eexists _, _. split; [lazy; reflexivity|].
  edestruct (@NewAgent_generates_key_once _ _ Fake.env Fake_KeyStore "wg0"
               Scenario.blank_world)
    as (newKey & h4 & h5 & _ & _ & _ & _ & _ & Hcount & _ & Hkey);
    [lazy; reflexivity | lazy; reflexivity | lazy; reflexivity
    | lazy; reflexivity |].
  split; [exact Hcount|]. split; [reflexivity|]. split; [exact Hkey|].
  reflexivity.
Defined.

Lemma allowed_ips_split_at_commas_witness :
  let allowed_ips := strings.Split "10.0.1.0/24,10.0.2.0/24" ","%char in
  length allowed_ips = strings.Count "10.0.1.0/24,10.0.2.0/24" ","%char + 1
  /\ strings.Join allowed_ips ","%char = "10.0.1.0/24,10.0.2.0/24"
  /\ (forall l, l <> [] -> Forall (no_sep ","%char) l ->
                strings.Join l ","%char = "10.0.1.0/24,10.0.2.0/24" ->
                allowed_ips = l)
  /\ exists peer err,
       Fake.newPeerConfig "abc=" EmptyString "1.2.3.4:51820" allowed_ips
       = (peer, err)
       /\ GetNewWgLease Fake.env Scenario.agent Scenario.serverUrl
                        Scenario.token Scenario.world
          = (Returns (match err with
                      | None => (peer, allowed_ips, None)
                      | Some e => (Some wgtypes.PeerConfig_zero, [], Some e)
                      end),
             mkWorld (host Scenario.world_addressed)
               (remote Scenario.world_addressed)
               (trace Scenario.world_addressed ++
                [Call_newPeerConfig "abc=" EmptyString "1.2.3.4:51820"
                                    allowed_ips])%list).
Proof.
  apply (@allowed_ips_split_at_commas _ _ Fake.env Scenario.agent
           Scenario.serverUrl Scenario.token Scenario.world
           Scenario.world_received Scenario.world_addressed Scenario.lease);
    reflexivity.
Defined.

Lemma NewAgent_stops_when_device_creation_fails_witness :
  NewAgent Fake.env "wireguard-tunnel-0" Scenario.blank_world
  = (Returns (Agent.mk "wireguard-tunnel-0" EmptyString EmptyString
                       NewNetLinkHandle None None,
              Some ("Error starting wg device: wireguard-tunnel-0: "
                    ++ "invalid interface name")),
     mkWorld (host Scenario.blank_world) (remote Scenario.blank_world)
       (trace Scenario.blank_world ++
        [Call_startTunDevice "wireguard-tunnel-0" make_chan])%list).
Proof.
  apply (@NewAgent_stops_when_device_creation_fails _ _ Fake.env
           "wireguard-tunnel-0" Scenario.blank_world None
           "invalid interface name" (host Scenario.blank_world)).
  reflexivity.
Defined.

Lemma addRoutes_stops_at_first_failure_witness :
  (exists w',
     addRoutesForAllowedIps Fake.env Scenario.agent
       ["10.0.1.0/24"; "bad"; "10.0.2.0/24"] Scenario.world_500
     = (Returns (Some "Cannot parse ip: bad: invalid CIDR address: bad"), w')
     /\ Fake.routes (host w') = [("wg0", Scenario.net_10_0_1_0)]
     /\ filter installs_route (trace w')
        = [Call_AddRoute "wg0" Scenario.net_10_0_1_0])
  /\ (exists w',
        addRoutesForAllowedIps Fake.env Scenario.stray_agent
          ["10.0.1.0/24"; "10.0.2.0/24"] Scenario.world_500
        = (Returns (Some ("Eror adding route 10.0.1.0/24 via wg1: "
                          ++ "no such device")), w')
        /\ Fake.routes (host w') = []
        /\ filter installs_route (trace w')
           = [Call_AddRoute "wg1" Scenario.net_10_0_1_0]).
Proof.
  split.
  - destruct (@addRoutes_stops_at_first_failure _ _ Fake.env Scenario.agent
                ["10.0.1.0/24"] ["10.0.2.0/24"] "bad" Scenario.world_500
                (snd (addRoutesForAllowedIps Fake.env Scenario.agent
                        ["10.0.1.0/24"] Scenario.world_500))
                eq_refl) as [Hparse _].
    eexists. split; [exact (Hparse _ eq_refl)|]. split; reflexivity.
  - destruct (@addRoutes_stops_at_first_failure _ _ Fake.env
                Scenario.stray_agent [] ["10.0.2.0/24"] "10.0.1.0/24"
                Scenario.world_500 Scenario.world_500 eq_refl) as [_ Hroute].
    eexists. split; [exact (Hroute _ _ _ eq_refl eq_refl)|].
    split; reflexivity.
Defined.

Lemma NewAgent_keeps_existing_key_witness :
  exists w',
    NewAgent Fake.env "wg0" Scenario.stored_key_world
    = (Returns (Agent.mk "wg0" "pub:KEY" "KEY" NewNetLinkHandle
                         (Some make_chan) (Some (TunDevice_of "wg0")), None),
       w')
    /\ count generates_key (trace w') = 0
    /\ count writes_key (trace w') = 0
    /\ Fake.keys (host w') = [("wg0", "KEY")]
    /\ NewAgent_keys Fake.env
         (Agent.mk "wg0" "pub:KEY" "KEY" NewNetLinkHandle
                   (Some make_chan) (Some (TunDevice_of "wg0")))
         "wg0" w'
       = (Returns (Agent.mk "wg0" "pub:KEY" "KEY" NewNetLinkHandle
                            (Some make_chan) (Some (TunDevice_of "wg0")),
                   None),
          mkWorld (host w') (remote w')
            (trace w' ++ [Call_getKeys "wg0"; Call_getKeys "wg0"])%list).
Proof.
  edestruct (@NewAgent_keeps_existing_key _ _ Fake.env Fake_KeyStore "wg0"
               Scenario.stored_key_world)
    as (Hnew & Hgen & Hset & Hagain);
    [lazy; reflexivity | lazy; reflexivity | lazy; reflexivity
    | discriminate |].
  eexists. split; [exact Hnew|].
  split; [exact Hgen|]. split; [exact Hset|]. split; [reflexivity|].
  exact Hagain.
Defined.

Lemma GetNewWgLease_error_returns_empty_witness :
  fst (fst (Scenario.rejected_result)) = Some wgtypes.PeerConfig_zero
  /\ snd (fst (Scenario.rejected_result)) = [].
Proof.
  apply (@GetNewWgLease_error_returns_empty _ _ Fake.env Scenario.agent
           Scenario.serverUrl Scenario.token Scenario.world_500
           (snd (GetNewWgLease Fake.env Scenario.agent Scenario.serverUrl
                   Scenario.token Scenario.world_500))
           _ _ "Response status: 500 Internal Server Error").
  reflexivity.
Defined.

Lemma requestWgConfig_ignores_NewRequest_error_witness :
  requestWgConfig Fake.env Scenario.agent Scenario.bad_url Scenario.token
                  Scenario.world
  = (Panics nil_dereference,
     mkWorld (host Scenario.world) (remote Scenario.world)
       (trace Scenario.world ++
        [Call_NewRequest "POST" (Scenario.bad_url ++ "/newPeerLease")
           (lease_request_body Fake.env "pub:KEY")])%list)
  /\ forall response err w',
       requestWgConfig Fake.env Scenario.agent Scenario.bad_url Scenario.token
                       Scenario.world
       <> (Returns (response, err), w').
Proof.
  apply (@requestWgConfig_ignores_NewRequest_error _ _ Fake.env Scenario.agent
           Scenario.bad_url Scenario.token Scenario.world
           "net/url: invalid control character in URL").
  reflexivity.
Defined.

(* ===================================================================== *)
(** * Runs on the test double *)
(* ===================================================================== *)

Example emptyKey_is_zero_key :
  wgtypes.Key_String wgtypes.Key_zero = emptyKey.
Proof. reflexivity. Qed.

Example Split_keeps_empty_entries :
  strings.Split "10.0.1.0/24,, 10.0.2.0/24," ","%char
  = ["10.0.1.0/24"; EmptyString; " 10.0.2.0/24"; EmptyString].
Proof. reflexivity. Qed.

Example Split_empty_string : strings.Split EmptyString ","%char = [EmptyString].
Proof. reflexivity. Qed.

Example Scenario_body_parses :
  Scenario.body = Scenario.json_of Scenario.lease
  /\ Fake.json_Unmarshal Scenario.body Response.zero = (Scenario.lease, None).
Proof. split; reflexivity. Qed.

(** The request that reaches the server in the scenario. *)
Example Scenario_request :
  filter (fun e => match e with Call_Do _ => true | _ => false end)
         (trace Scenario.world_received)
  = [Call_Do
       (http.Request.mk "POST" "https://lease.example/newPeerLease"
          [("Content-Type", "application/json");
           ("Authorization", "Bearer secret")]
          ("{" ++ quoted "pubKey" ++ ":" ++ quoted "pub:KEY" ++ "}"))].
Proof. reflexivity. Qed.

(** A lease whose address does not parse: nothing is installed. *)
Example GetNewWgLease_bad_address :
  exists w',
    GetNewWgLease Fake.env Scenario.agent Scenario.serverUrl Scenario.token
                  Scenario.world_bad_address
    = (Returns (Some wgtypes.PeerConfig_zero, [],
                Some ("Cannot parse offered ip net: "
                      ++ "invalid CIDR address: 10.0.0.5")), w')
    /\ count installs (trace w') = 0.
Proof. eexists. split; [lazy; reflexivity | reflexivity]. Qed.

(** A lease [newPeerConfig] refuses: the error comes back with the
    empty results, and the address stays on the device. *)
Example GetNewWgLease_peer_refused :
  exists w',
    GetNewWgLease Fake.env Scenario.agent Scenario.serverUrl Scenario.token
                  Scenario.world_no_peer_key
    = (Returns (Some wgtypes.PeerConfig_zero, [], Some "empty public key"), w')
    /\ Fake.addresses (host w') = [("wg0", Scenario.ip_10_0_0_5)].
Proof. eexists. split; [lazy; reflexivity | reflexivity]. Qed.

(** A device that comes up without a key gets one. *)
Example NewAgent_blank_host :
  exists w',
    NewAgent Fake.env "wg0" Scenario.blank_world
    = (Returns (Agent.mk "wg0" ("pub:" ++ Scenario.generated_key)
                         Scenario.generated_key NewNetLinkHandle
                         (Some make_chan) (Some (TunDevice_of "wg0")), None),
       w')
    /\ trace w'
       = [Call_startTunDevice "wg0" make_chan;
          Go_Run (Some (TunDevice_of "wg0"));
          Call_EnsureLinkUp "wg0";
          Call_getKeys "wg0";
          Call_GeneratePrivateKey;
          Call_setPrivateKey "wg0" Scenario.generated_key;
          Call_getKeys "wg0"].
Proof. eexists. split; [lazy; reflexivity | reflexivity]. Qed.

(* ===================================================================== *)
(** * Further properties of the agent *)
(* ===================================================================== *)

Lemma calls_since_app {H N : Type} (w w' : World H N) (calls : list Event) :
  trace w' = (trace w ++ calls)%list -> calls_since w w' = calls.
Proof.
  intros Ht. unfold calls_since. rewrite Ht, skipn_app, skipn_all.
  now rewrite Nat.sub_diag.
Qed.

Ltac since :=
  erewrite calls_since_app by (cbn [trace]; tidy; reflexivity).

Ltac conjs := repeat match goal with |- _ /\ _ => split end.

Section RequestFacts.

Context {H N : Type} (E : Env H N).

(** The three ways a call of [requestWgConfig] goes. *)
Lemma requestWgConfig_cases (a : Agent.t) (serverUrl token : string)
  (w : World H N) :
  let r := requestWgConfig E a serverUrl token w in
  let built := Call_NewRequest "POST" (serverUrl ++ "/newPeerLease")
                 (lease_request_body E (Agent.pubKey a)) in
  let sent := Call_Do (lease_request E a serverUrl token) in
  match url_Parse E (serverUrl ++ "/newPeerLease") with
  | Some _ =>
      r = (Panics nil_dereference,
           mkWorld (host w) (remote w) (trace w ++ [built])%list)
  | None =>
      match client_Do E (lease_request E a serverUrl token) (remote w) with
      | (Err e, n') =>
          r = (Returns (Response.zero, Some e),
               mkWorld (host w) n' (trace w ++ [built; sent])%list)
      | (Ok resp, n') =>
          exists response err,
            r = (Returns (response, err),
                 mkWorld (host w) n'
                   (trace w ++ [built; sent; Call_Body_Close])%list)
      end
  end.
Proof.
  cbv zeta.
  destruct (url_Parse E (serverUrl ++ "/newPeerLease")) as [e|] eqn:Hurl.
  - now apply requestWgConfig_unparsed with (e := e).
  - pose proof (requestWgConfig_sent E a serverUrl token w Hurl) as Hsent.
    cbv zeta in Hsent.
    destruct (client_Do E (lease_request E a serverUrl token) (remote w))
      as [[resp|e] n'].
    + destruct Hsent as (response & err & Hr & _).
      exists response, err. rewrite Hr. tidy. reflexivity.
    + rewrite Hsent. tidy. reflexivity.
Qed.

(** X1.  [requestWgConfig] hands at most one request to the HTTP
    client, and that request is a POST to the server URL followed by
    /newPeerLease, with the headers Content-Type: application/json and
    Authorization: Bearer and the token. *)
Theorem lease_request_is_one_authorized_post
  (a : Agent.t) (serverUrl token : string) (w : World H N) :
  let calls :=
    calls_since w (snd (requestWgConfig E a serverUrl token w)) in
  count sends_request calls <= 1
  /\ forall req, In (Call_Do req) calls ->
       http.Request.Method req = "POST"
       /\ http.Request.URL req = serverUrl ++ "/newPeerLease"
       /\ http.Request.Header req
          = [("Content-Type", "application/json");
             ("Authorization", "Bearer " ++ token)].
Proof.
  cbv zeta.
  pose proof (requestWgConfig_cases a serverUrl token w) as Hc.
  cbv zeta in Hc.
  destruct (url_Parse E (serverUrl ++ "/newPeerLease")) as [e|].
  - rewrite Hc. since. split; [cbn; lia|].
    intros req [Hreq|[]]. discriminate.
  - destruct (client_Do E (lease_request E a serverUrl token) (remote w))
      as [[resp|e] n'].
    + destruct Hc as (response & err & ->). since. split; [cbn; lia|].
      intros req [Hreq|[Hreq|[Hreq|[]]]]; try discriminate.
      injection Hreq as <-. repeat split.
    + rewrite Hc. since. split; [cbn; lia|].
      intros req [Hreq|[Hreq|[]]]; try discriminate.
      injection Hreq as <-. repeat split.
Qed.

(** X2.  [requestWgConfig] never changes the host, and it returns to
    its caller exactly when the URL of the request parses (otherwise it
    panics). *)
Theorem requestWgConfig_returns_iff_url_parses
  (a : Agent.t) (serverUrl token : string) (w : World H N) :
  host (snd (requestWgConfig E a serverUrl token w)) = host w
  /\ ((exists v, fst (requestWgConfig E a serverUrl token w) = Returns v)
      <-> url_Parse E (serverUrl ++ "/newPeerLease") = None).
Proof.
  pose proof (requestWgConfig_cases a serverUrl token w) as Hc.
  cbv zeta in Hc.
  destruct (url_Parse E (serverUrl ++ "/newPeerLease")) as [e|].
  - rewrite Hc. split; [reflexivity|]. split; [|discriminate].
    intros [v Hv]. discriminate.
  - destruct (client_Do E (lease_request E a serverUrl token) (remote w))
      as [[resp|e] n'].
    + destruct Hc as (response & err & ->). split; [reflexivity|].
      split; [reflexivity|]. intros _. eexists. reflexivity.
    + rewrite Hc. split; [reflexivity|].
      split; [reflexivity|]. intros _. eexists. reflexivity.
Qed.

(** X3.  When the HTTP client fails to get a response, [GetNewWgLease]
    returns the client's error as it is, with the empty results; no body
    is closed, nothing is parsed or installed, and the host is left as
    it was. *)
Theorem transport_error_returned_as_is
  (a : Agent.t) (serverUrl token : string) (w : World H N)
  (e : string) (n' : N) :
  url_Parse E (serverUrl ++ "/newPeerLease") = None ->
  client_Do E (lease_request E a serverUrl token) (remote w) = (Err e, n') ->
  GetNewWgLease E a serverUrl token w
  = (Returns (Some wgtypes.PeerConfig_zero, [], Some e),
     mkWorld (host w) n'
       (trace w ++
        [Call_NewRequest "POST" (serverUrl ++ "/newPeerLease")
           (lease_request_body E (Agent.pubKey a));
         Call_Do (lease_request E a serverUrl token)])%list).
Proof.
  intros Hurl Hdo. rewrite GetNewWgLease_run.
  pose proof (requestWgConfig_cases a serverUrl token w) as Hc.
  cbv zeta in Hc. rewrite Hurl, Hdo in Hc. now rewrite Hc.
Qed.

(** X4.  The body of the response is closed exactly once when the
    client returned a response, whatever its status and whether or not
    it could be read and decoded; it is not closed when there is no
    response. *)
Theorem response_body_closed_once
  (a : Agent.t) (serverUrl token : string) (w : World H N) :
  count closes_body
        (calls_since w (snd (requestWgConfig E a serverUrl token w)))
  = match url_Parse E (serverUrl ++ "/newPeerLease"),
          fst (client_Do E (lease_request E a serverUrl token) (remote w))
    with
    | None, Ok _ => 1
    | _, _ => 0
    end.
Proof.
  pose proof (requestWgConfig_cases a serverUrl token w) as Hc.
  cbv zeta in Hc.
  destruct (url_Parse E (serverUrl ++ "/newPeerLease")) as [e|].
  - rewrite Hc. since. reflexivity.
  - destruct (client_Do E (lease_request E a serverUrl token) (remote w))
      as [[resp|e] n'].
    + destruct Hc as (response & err & ->). since. reflexivity.
    + rewrite Hc. since. reflexivity.
Qed.

(** X5.  When the server answers 200 and reading the body fails,
    [GetNewWgLease] returns the read error behind the text
    "error reading response body: " and followed by a comma, with the
    empty results; the body is closed and nothing is installed. *)
Theorem unreadable_body_reported
  (a : Agent.t) (serverUrl token : string) (w : World H N)
  (resp : http.Response.t) (n' : N) (e : string) :
  url_Parse E (serverUrl ++ "/newPeerLease") = None ->
  client_Do E (lease_request E a serverUrl token) (remote w) = (Ok resp, n') ->
  http.Response.StatusCode resp = 200%Z ->
  http.read_error (http.Response.Body resp) = Some e ->
  GetNewWgLease E a serverUrl token w
  = (Returns (Some wgtypes.PeerConfig_zero, [],
              Some ("error reading response body: " ++ e ++ ",")),
     mkWorld (host w) n'
       (trace w ++
        [Call_NewRequest "POST" (serverUrl ++ "/newPeerLease")
           (lease_request_body E (Agent.pubKey a));
         Call_Do (lease_request E a serverUrl token);
         Call_Body_Close])%list).
Proof.
  intros Hurl Hdo Hstatus Hread. rewrite GetNewWgLease_run.
  pose proof (requestWgConfig_sent E a serverUrl token w Hurl) as Hsent.
  cbv zeta in Hsent. rewrite Hdo in Hsent.
  destruct Hsent as (response & err & -> & _ & Hbroken & _).
  destruct (Hbroken Hstatus e Hread) as [-> ->]. tidy. reflexivity.
Qed.

(** X6.  When the server answers 200 and the body does not decode,
    [requestWgConfig] returns the decoder's error as it is together with
    the response as far as the decoder filled it; [GetNewWgLease] drops
    that response, returns the same error with the empty results, and
    installs nothing. *)
Theorem undecodable_body_reported
  (a : Agent.t) (serverUrl token : string) (w : World H N)
  (resp : http.Response.t) (n' : N) (partial : Response.t) (e : string) :
  url_Parse E (serverUrl ++ "/newPeerLease") = None ->
  client_Do E (lease_request E a serverUrl token) (remote w) = (Ok resp, n') ->
  http.Response.StatusCode resp = 200%Z ->
  http.read_error (http.Response.Body resp) = None ->
  json_Unmarshal E (http.data (http.Response.Body resp)) Response.zero
  = (partial, Some e) ->
  let w' :=
    mkWorld (host w) n'
      (trace w ++
       [Call_NewRequest "POST" (serverUrl ++ "/newPeerLease")
          (lease_request_body E (Agent.pubKey a));
        Call_Do (lease_request E a serverUrl token);
        Call_Body_Close])%list in
  requestWgConfig E a serverUrl token w = (Returns (partial, Some e), w')
  /\ GetNewWgLease E a serverUrl token w
     = (Returns (Some wgtypes.PeerConfig_zero, [], Some e), w').
Proof.
  intros Hurl Hdo Hstatus Hread Hjson. cbv zeta.
  rewrite GetNewWgLease_run.
  pose proof (requestWgConfig_sent E a serverUrl token w Hurl) as Hsent.
  cbv zeta in Hsent. rewrite Hdo in Hsent.
  destruct Hsent as (response & err & -> & _ & _ & Hok).
  specialize (Hok Hstatus Hread). rewrite Hjson in Hok.
  injection Hok as -> ->. tidy. split; reflexivity.
Qed.

End RequestFacts.

Section LeaseFacts.

Context {H N : Type} (E : Env H N).

Lemma count_cons (p : Event -> bool) (e : Event) (t : list Event) :
  count p (e :: t) = (if p e then 1 else 0) + count p t.
Proof. unfold count. cbn [filter]. destruct (p e); reflexivity. Qed.

(** X7.  When the lease has been received and its address cannot be
    applied, [GetNewWgLease] ends there.  An address that does not parse
    gives the parser's error behind "Cannot parse offered ip net: " and
    the host is not touched; an address the kernel refuses gives the
    kernel's error as it is.  In both cases [newPeerConfig] is not
    called, and the state of the server is the one after the grant. *)
Theorem address_failure_ends_lease_call
  (a : Agent.t) (serverUrl token : string) (w w1 : World H N)
  (resp : Response.t) :
  requestWgConfig E a serverUrl token w = (Returns (resp, None), w1) ->
  (forall e,
     ParseIPNet E (Response.IP resp) = Err e ->
     GetNewWgLease E a serverUrl token w
     = (Returns (Some wgtypes.PeerConfig_zero, [],
                 Some ("Cannot parse offered ip net: " ++ e)),
        mkWorld (host w1) (remote w1)
          (trace w1 ++ [Call_ParseIPNet (Response.IP resp)])%list))
  /\ (forall devIP e h',
        ParseIPNet E (Response.IP resp) = Ok devIP ->
        UpdateIP E (Agent.netlinkHandle a) (Agent.device a) devIP (host w1)
        = (Some e, h') ->
        GetNewWgLease E a serverUrl token w
        = (Returns (Some wgtypes.PeerConfig_zero, [], Some e),
           mkWorld h' (remote w1)
             (trace w1 ++
              [Call_ParseIPNet (Response.IP resp);
               Log_Printf ("Configuring offered ip: "
                           ++ IPNet_String E devIP ++ " on dev: "
                           ++ Agent.device a ++ newline);
               Call_UpdateIP (Agent.device a) devIP])%list)).
Proof.
  intros Hreq. split.
  - intros e Hparse.
    rewrite GetNewWgLease_run, Hreq, addIpToDev_run, Hparse. reflexivity.
  - intros devIP e h' Hparse Hupdate.
    rewrite GetNewWgLease_run, Hreq, addIpToDev_run, Hparse, Hupdate.
    reflexivity.
Qed.

(** X8.  Nothing is rolled back: when the address of the lease has been
    installed and [newPeerConfig] then fails, [GetNewWgLease] returns
    that error with the empty results and the host stays as [UpdateIP]
    left it, the address installed. *)
Theorem refused_peer_leaves_address
  (a : Agent.t) (serverUrl token : string) (w w1 : World H N)
  (resp : Response.t) (devIP : net.IPNet) (h1 : H)
  (peer : option wgtypes.PeerConfig) (e : string) :
  requestWgConfig E a serverUrl token w = (Returns (resp, None), w1) ->
  ParseIPNet E (Response.IP resp) = Ok devIP ->
  UpdateIP E (Agent.netlinkHandle a) (Agent.device a) devIP (host w1)
  = (None, h1) ->
  newPeerConfig E (Response.PubKey resp) EmptyString (Response.Endpoint resp)
    (strings.Split (Response.AllowedIPs resp) ","%char) = (peer, Some e) ->
  exists w',
    GetNewWgLease E a serverUrl token w
    = (Returns (Some wgtypes.PeerConfig_zero, [], Some e), w')
    /\ host w' = h1
    /\ filter installs (calls_since w1 w')
       = [Call_UpdateIP (Agent.device a) devIP].
Proof.
  intros Hreq Hparse Hupdate Hpeer.
  rewrite GetNewWgLease_run, Hreq, addIpToDev_run, Hparse, Hupdate.
  cbv zeta. rewrite Hpeer.
  eexists. split; [reflexivity|]. split; [reflexivity|].
  since. reflexivity.
Qed.

(** X9.  Whatever the server answers, one call of [GetNewWgLease] sends
    at most one request, installs at most one address, calls
    [newPeerConfig] at most once and never installs a route; and when
    no address was installed the host is as it was. *)
Theorem GetNewWgLease_calls_bounded
  (a : Agent.t) (serverUrl token : string) (w : World H N) :
  let w' := snd (GetNewWgLease E a serverUrl token w) in
  let calls := calls_since w w' in
  count sends_request calls <= 1
  /\ count installs_address calls <= 1
  /\ count builds_peer calls <= 1
  /\ count installs_route calls = 0
  /\ (count installs_address calls = 0 -> host w' = host w).
Proof.
  cbv zeta. rewrite GetNewWgLease_run.
  pose proof (requestWgConfig_cases E a serverUrl token w) as Hc.
  cbv zeta in Hc.
  destruct (url_Parse E (serverUrl ++ "/newPeerLease")) as [e|].
  { rewrite Hc. since. cbn. conjs; try lia; intros _; reflexivity. }
  destruct (client_Do E (lease_request E a serverUrl token) (remote w))
    as [[resp|e] n'].
  2: { rewrite Hc. since. cbn. conjs; try lia; intros _; reflexivity. }
  destruct Hc as (response & [e|] & ->).
  { since. cbn. conjs; try lia; intros _; reflexivity. }
  rewrite addIpToDev_run. cbn [host remote trace].
  destruct (ParseIPNet E (Response.IP response)) as [devIP|e].
  2: { since. cbn. conjs; try lia; intros _; reflexivity. }
  destruct (UpdateIP E (Agent.netlinkHandle a) (Agent.device a) devIP (host w))
    as [[e|] h'].
  { since. cbn. conjs; try lia; intros _; reflexivity. }
  cbv zeta.
  destruct (newPeerConfig E (Response.PubKey response) EmptyString
              (Response.Endpoint response)
              (strings.Split (Response.AllowedIPs response) ","))
    as [peer [e|]];
    since; cbn; conjs; try lia; intros _; reflexivity.
Qed.

(** X10.  Among the results [GetNewWgLease] returns, the list of
    allowed IPs is empty exactly when the error is not nil: after a
    successful call the list has at least one entry, even for a lease
    whose AllowedIPs string is empty. *)
Theorem allowed_ips_empty_iff_error
  (a : Agent.t) (serverUrl token : string) (w w' : World H N)
  (peer : option wgtypes.PeerConfig) (allowed_ips : list string)
  (err : error) :
  GetNewWgLease E a serverUrl token w
  = (Returns (peer, allowed_ips, err), w') ->
  (err = None <-> allowed_ips <> [])
  /\ (err = None -> 1 <= length allowed_ips).
Proof.
  rewrite GetNewWgLease_run.
  destruct (requestWgConfig E a serverUrl token w)
    as [[[resp [e1|]]|msg] w1]; try discriminate.
  { intros Heq. injection Heq as _ <- <- _.
    split; [split|]; intros; congruence. }
  destruct (addIpToDev E a (Response.IP resp) w1) as [[[e2|]|msg] w2];
    try discriminate.
  { intros Heq. injection Heq as _ <- <- _.
    split; [split|]; intros; congruence. }
  cbv zeta.
  destruct (newPeerConfig E (Response.PubKey resp) EmptyString
              (Response.Endpoint resp)
              (strings.Split (Response.AllowedIPs resp) ","))
    as [peer' [e3|]]; intros Heq; injection Heq as _ <- <- _.
  - split; [split|]; intros; congruence.
  - split; [split; intros _; [apply Split_not_nil | reflexivity]|].
    intros _. rewrite Split_length. lia.
Qed.

(** ** [addRoutesForAllowedIps] *)

(** What every call of [addRoutesForAllowedIps] keeps to. *)
Lemma addRoutes_shape (a : Agent.t) (l : list string) :
  forall w : World H N,
  exists err w' calls,
    addRoutesForAllowedIps E a l w = (Returns err, w')
    /\ trace w' = (trace w ++ calls)%list
    /\ remote w' = remote w
    /\ count installs_route calls <= length l
    /\ count installs_address calls = 0
    /\ count talks_to_server calls = 0
    /\ (err = None ->
        exists dsts,
          Forall2 (fun s d => ParseIPNet E s = Ok d) l dsts
          /\ filter installs_route calls
             = map (Call_AddRoute (Agent.device a)) dsts).
Proof.
  induction l as [|aip l IH]; intros w.
  - exists None, w, []. cbn. rewrite app_nil_r.
    conjs; [reflexivity | reflexivity | reflexivity | lia | reflexivity
           | reflexivity |].
    intros _. exists []. split; constructor.
  - rewrite addRoutes_cons.
    destruct (ParseIPNet E aip) as [dst|e] eqn:Hparse.
    2: { eexists _, _, _. split; [reflexivity|].
         conjs; [reflexivity | reflexivity | cbn; lia | reflexivity
                | reflexivity | discriminate]. }
    cbv zeta.
    destruct (AddRoute E (Agent.netlinkHandle a) (Agent.device a) dst (host w))
      as [[e|] h'].
    { eexists _, _, _. split; [reflexivity|].
      conjs; [reflexivity | reflexivity | cbn; lia | reflexivity
             | reflexivity | discriminate]. }
    destruct (IH (mkWorld h' (remote w)
                    (trace w ++
                     [Call_ParseIPNet aip;
                      Log_Printf ("Adding route: " ++ IPNet_String E dst
                                  ++ " on dev " ++ Agent.device a ++ newline);
                      Call_AddRoute (Agent.device a) dst])%list))
      as (err & w' & calls & Hrun & Ht & Hr & Hroutes & Haddr & Hsrv & Hok).
    cbn [host remote trace] in *. rewrite <- app_assoc in Ht. cbn [app] in Ht.
    eexists err, w', _. split; [exact Hrun|]. split; [exact Ht|].
    split; [exact Hr|]. rewrite !count_cons. cbn [installs_route
      installs_address talks_to_server length].
    split; [lia|]. split; [exact Haddr|]. split; [exact Hsrv|].
    intros Herr. destruct (Hok Herr) as (dsts & Hall & Hfilter).
    exists (dst :: dsts). split; [now constructor|].
    cbn [filter installs_route map]. now rewrite Hfilter.
Qed.

(** X11.  When [addRoutesForAllowedIps] returns nil, every prefix of
    the list parsed and exactly one route was installed for each, in
    the order of the list. *)
Theorem routes_installed_in_list_order
  (a : Agent.t) (allowed_ips : list string) (w w' : World H N) :
  addRoutesForAllowedIps E a allowed_ips w = (Returns None, w') ->
  exists dsts,
    Forall2 (fun s d => ParseIPNet E s = Ok d) allowed_ips dsts
    /\ filter installs_route (calls_since w w')
       = map (Call_AddRoute (Agent.device a)) dsts
    /\ count installs_route (calls_since w w') = length allowed_ips.
Proof.
  intros Hrun.
  destruct (addRoutes_shape a allowed_ips w)
    as (err & w2 & calls & Hrun' & Ht & _ & _ & _ & _ & Hok).
  rewrite Hrun in Hrun'. injection Hrun' as <- <-.
  destruct (Hok eq_refl) as (dsts & Hall & Hfilter).
  exists dsts. rewrite (@calls_since_app _ _ w w' calls Ht).
  split; [exact Hall|]. split; [exact Hfilter|].
  unfold count. rewrite Hfilter, length_map.
  symmetry. exact (Forall2_length Hall).
Qed.

(** X12.  [addRoutesForAllowedIps] always returns: it installs at most
    one route for each prefix of the list, installs no address, and
    makes no call to the lease server, whose state it leaves as it
    was. *)
Theorem addRoutes_calls_bounded
  (a : Agent.t) (allowed_ips : list string) (w : World H N) :
  exists err w',
    addRoutesForAllowedIps E a allowed_ips w = (Returns err, w')
    /\ remote w' = remote w
    /\ count installs_route (calls_since w w') <= length allowed_ips
    /\ count installs_address (calls_since w w') = 0
    /\ count talks_to_server (calls_since w w') = 0.
Proof.
  destruct (addRoutes_shape a allowed_ips w)
    as (err & w' & calls & Hrun & Ht & Hr & Hroutes & Haddr & Hsrv & _).
  exists err, w'. rewrite (@calls_since_app _ _ w w' calls Ht). auto.
Qed.

(** X13.  An error of [addRoutesForAllowedIps] always comes from one
    prefix of the list, the first that fails: the prefixes before it
    went through, and the error is either the parse error of that
    prefix or the error of its [AddRoute]. *)
Theorem addRoutes_error_has_first_failure
  (a : Agent.t) (allowed_ips : list string) (w w' : World H N) (msg : string) :
  addRoutesForAllowedIps E a allowed_ips w = (Returns (Some msg), w') ->
  exists before aip after w1,
    allowed_ips = (before ++ aip :: after)%list
    /\ addRoutesForAllowedIps E a before w = (Returns None, w1)
    /\ ((exists e, ParseIPNet E aip = Err e
                   /\ msg = "Cannot parse ip: " ++ aip ++ ": " ++ e)
        \/ (exists dst e h',
              ParseIPNet E aip = Ok dst
              /\ AddRoute E (Agent.netlinkHandle a) (Agent.device a) dst
                          (host w1) = (Some e, h')
              /\ msg = "Eror adding route " ++ IPNet_String E dst ++ " via "
                       ++ Agent.device a ++ ": " ++ e)).
Proof.
  revert w. induction allowed_ips as [|aip l IH]; intros w.
  - cbn. unfold ret. discriminate.
  - rewrite addRoutes_cons.
    destruct (ParseIPNet E aip) as [dst|e] eqn:Hparse.
    2: { intros Heq. injection Heq as <- _.
         exists [], aip, l, w. split; [reflexivity|].
         split; [reflexivity|]. left. now exists e. }
    cbv zeta.
    destruct (AddRoute E (Agent.netlinkHandle a) (Agent.device a) dst (host w))
      as [[e|] h'] eqn:Hroute.
    { intros Heq. injection Heq as <- _.
      exists [], aip, l, w. split; [reflexivity|].
      split; [reflexivity|]. right. now exists dst, e, h'. }
    intros Hrest.
    destruct (IH _ Hrest) as (before & x & after & w1 & -> & Hbefore & Hfail).
    exists (aip :: before), x, after, w1. split; [reflexivity|].
    split; [|exact Hfail].
    rewrite addRoutes_cons, Hparse. cbv zeta. rewrite Hroute. exact Hbefore.
Qed.

(** X14.  A list with an entry that does not parse never gets all its
    routes: [addRoutesForAllowedIps] returns an error.  This is the case
    of the list [GetNewWgLease] returns for a lease whose AllowedIPs
    string is empty or has an empty entry, when the parser rejects the
    empty string; for the empty AllowedIPs string the call fails on its
    only entry before any route is installed. *)
Theorem unparsable_entry_fails_routes
  (a : Agent.t) (w : World H N) (e : string) :
  ParseIPNet E EmptyString = Err e ->
  (forall s,
     In EmptyString (strings.Split s ","%char) ->
     exists msg w',
       addRoutesForAllowedIps E a (strings.Split s ","%char) w
       = (Returns (Some msg), w'))
  /\ addRoutesForAllowedIps E a (strings.Split EmptyString ","%char) w
     = (Returns (Some ("Cannot parse ip: : " ++ e)),
        mkWorld (host w) (remote w)
          (trace w ++ [Call_ParseIPNet EmptyString])%list).
Proof.
  intros Hempty. split.
  - intros s Hin.
    destruct (addRoutes_shape a (strings.Split s ",") w)
      as ([msg|] & w' & calls & Hrun & _ & _ & _ & _ & _ & Hok).
    + now exists msg, w'.
    + destruct (Hok eq_refl) as (dsts & Hall & _). exfalso.
      clear - Hempty Hin Hall.
      induction Hall as [|x d l dsts Hx Hall IH]; [contradiction|].
      destruct Hin as [->|Hin]; [congruence | auto].
  - cbn [strings.Split]. rewrite addRoutes_cons, Hempty. reflexivity.
Qed.

(** The requests sent in a call of [GetNewWgLease] are those of its
    [requestWgConfig]. *)
Lemma GetNewWgLease_requests (a : Agent.t) (serverUrl token : string)
  (w : World H N) (req : http.Request.t) :
  In (Call_Do req)
     (calls_since w (snd (GetNewWgLease E a serverUrl token w))) ->
  req = lease_request E a serverUrl token.
Proof.
  rewrite GetNewWgLease_run.
  pose proof (requestWgConfig_cases E a serverUrl token w) as Hc.
  cbv zeta in Hc.
  assert (Hin : forall l : list Event,
             In (Call_Do req)
                (Call_NewRequest "POST" (serverUrl ++ "/newPeerLease")
                   (lease_request_body E (Agent.pubKey a))
                 :: Call_Do (lease_request E a serverUrl token) :: l) ->
             ~ In (Call_Do req) l ->
             req = lease_request E a serverUrl token).
  { intros l [Hreq|[Hreq|Hreq]] Hl; try discriminate; [|contradiction].
    now injection Hreq as <-. }
  destruct (url_Parse E (serverUrl ++ "/newPeerLease")) as [e|].
  { rewrite Hc. since. intros [Hreq|[]]. discriminate. }
  destruct (client_Do E (lease_request E a serverUrl token) (remote w))
    as [[resp|e] n'].
  2: { rewrite Hc. since. intros Hreq. apply (Hin _ Hreq). intros []. }
  destruct Hc as (response & [e|] & ->).
  { since. intros Hreq. apply (Hin _ Hreq).
    intros [Hx|[]]. discriminate. }
  rewrite addIpToDev_run. cbn [host remote trace].
  destruct (ParseIPNet E (Response.IP response)) as [devIP|e].
  2: { since. intros Hreq. apply (Hin _ Hreq).
       intros [Hx|[Hx|[]]]; discriminate. }
  destruct (UpdateIP E (Agent.netlinkHandle a) (Agent.device a) devIP (host w))
    as [[e|] h'].
  { since. intros Hreq. apply (Hin _ Hreq).
    intros [Hx|[Hx|[Hx|[Hx|[]]]]]; discriminate. }
  cbv zeta.
  destruct (newPeerConfig E (Response.PubKey response) EmptyString
              (Response.Endpoint response)
              (strings.Split (Response.AllowedIPs response) ","))
    as [peer [e|]];
    since; intros Hreq; apply (Hin _ Hreq);
    intros [Hx|[Hx|[Hx|[Hx|[Hx|[]]]]]]; discriminate.
Qed.

End LeaseFacts.

Section ConstructionFacts.

Context {H N : Type} (E : Env H N).

(** What every run of the key step keeps to. *)
Lemma NewAgent_keys_shape (a : Agent.t) (deviceName : string) (w : World H N) :
  exists a' err w' calls,
    NewAgent_keys E a deviceName w = (Returns (a', err), w')
    /\ trace w' = (trace w ++ calls)%list
    /\ remote w' = remote w
    /\ Agent.device a' = Agent.device a
    /\ Agent.stop a' = Agent.stop a
    /\ Agent.tundev a' = Agent.tundev a
    /\ count installs calls = 0
    /\ count talks_to_server calls = 0
    /\ count starts_run_loop calls = 0
    /\ count generates_key calls <= 1
    /\ count writes_key calls <= count generates_key calls
    /\ (err = None ->
        exists h pubKey privKey,
          getKeys E deviceName h = ((pubKey, privKey, None), host w')
          /\ Agent.pubKey a' = pubKey /\ Agent.privKey a' = privKey).
Proof.
  destruct (getKeys E deviceName (host w)) as [[[pub0 priv0] [e|]] h1] eqn:Hget.
  { unfold NewAgent_keys. run. rewrite Hget.
    eexists _, _, _, _. split; [reflexivity|]. split; [tidy; reflexivity|].
    conjs; try reflexivity; try (cbn; lia). discriminate. }
  destruct (String.eqb_spec priv0 emptyKey) as [->|Hkey].
  - rewrite (NewAgent_keys_empty E a deviceName w Hget). cbv zeta.
    destruct (GeneratePrivateKey E h1) as [[newKey|e] h2].
    2: { eexists _, _, _, _. split; [reflexivity|].
         split; [tidy; reflexivity|].
         conjs; try reflexivity; try (cbn; lia). discriminate. }
    destruct (setPrivateKey E (Agent.device a) (wgtypes.Key_String newKey) h2)
      as [[e|] h3].
    { eexists _, _, _, _. split; [reflexivity|].
      split; [tidy; reflexivity|].
      conjs; try reflexivity; try (cbn; lia). discriminate. }
    rewrite NewAgent_fetch_run. cbn [host remote trace].
    destruct (getKeys E deviceName h3) as [[[pub1 priv1] err] h4] eqn:Hread.
    eexists _, _, _, _. split; [reflexivity|].
    split; [tidy; reflexivity|].
    conjs; try reflexivity; try (cbn; lia).
    intros ->. exists h3, pub1, priv1. cbn. auto.
  - rewrite (NewAgent_keys_keyed E a deviceName w Hget Hkey).
    rewrite NewAgent_fetch_run. cbn [host remote trace].
    destruct (getKeys E deviceName h1) as [[[pub1 priv1] err] h2] eqn:Hread.
    eexists _, _, _, _. split; [reflexivity|].
    split; [tidy; reflexivity|].
    conjs; try reflexivity; try (cbn; lia).
    intros ->. exists h1, pub1, priv1. cbn. auto.
Qed.

(** What every run of [NewAgent] keeps to. *)
Lemma NewAgent_shape (deviceName : string) (w : World H N) :
  exists a err w' calls,
    NewAgent E deviceName w = (Returns (a, err), w')
    /\ trace w' = (trace w ++ calls)%list
    /\ remote w' = remote w
    /\ Agent.device a = deviceName
    /\ Agent.stop a
       = match snd (fst (startTunDevice E deviceName make_chan (host w))) with
         | None => Some make_chan
         | Some _ => None
         end
    /\ count installs calls = 0
    /\ count talks_to_server calls = 0
    /\ count starts_run_loop calls
       = match snd (fst (startTunDevice E deviceName make_chan (host w))) with
         | None => 1
         | Some _ => 0
         end
    /\ count generates_key calls <= 1
    /\ count writes_key calls <= count generates_key calls
    /\ (err = None ->
        exists h pubKey privKey,
          getKeys E deviceName h = ((pubKey, privKey, None), host w')
          /\ Agent.pubKey a = pubKey /\ Agent.privKey a = privKey).
Proof.
  rewrite NewAgent_run.
  destruct (startTunDevice E deviceName make_chan (host w))
    as [[tundev [e|]] h1]; cbn [fst snd].
  { eexists _, _, _, _. split; [reflexivity|]. split; [reflexivity|].
    conjs; try reflexivity; try (cbn; lia). discriminate. }
  cbv zeta.
  destruct (EnsureLinkUp E NewNetLinkHandle deviceName h1) as [[e|] h2].
  { eexists _, _, _, _. split; [reflexivity|]. split; [reflexivity|].
    conjs; try reflexivity; try (cbn; lia). discriminate. }
  match goal with
  | |- context [NewAgent_keys E ?a0 deviceName ?w0] =>
      destruct (NewAgent_keys_shape a0 deviceName w0)
        as (a' & err & w' & calls & -> & Ht & Hr & Hd & Hs & _ & Hi & Hsrv
            & Hrun & Hgen & Hset & Hok)
  end.
  cbn [host remote trace Agent.device Agent.stop] in *.
  rewrite <- app_assoc in Ht. cbn [app] in Ht.
  eexists _, _, _, _. split; [reflexivity|]. split; [exact Ht|].
  rewrite !count_cons.
  cbn [installs talks_to_server starts_run_loop generates_key writes_key].
  conjs; try assumption; try lia.
Qed.

(** X15.  When the link cannot be brought up, [NewAgent] returns the
    error of [EnsureLinkUp] as it is.  By then the run loop of the
    device has been handed to its goroutine, and the agent that is
    returned holds the stop channel and the device but no keys: no key
    was read. *)
Theorem link_failure_leaves_run_loop
  (deviceName : string) (w : World H N) (tundev : option TunDevice)
  (h1 h2 : H) (e : string) :
  startTunDevice E deviceName make_chan (host w) = ((tundev, None), h1) ->
  EnsureLinkUp E NewNetLinkHandle deviceName h1 = (Some e, h2) ->
  NewAgent E deviceName w
  = (Returns (Agent.mk deviceName EmptyString EmptyString NewNetLinkHandle
                       (Some make_chan) tundev, Some e),
     mkWorld h2 (remote w)
       (trace w ++
        [Call_startTunDevice deviceName make_chan;
         Go_Run tundev;
         Call_EnsureLinkUp deviceName])%list).
Proof.
  intros Hstart Hup. rewrite NewAgent_run, Hstart. cbv zeta.
  rewrite Hup. reflexivity.
Qed.

(** X16.  [NewAgent] always returns, and always an agent for the device
    it was asked for.  It makes no call to the lease server, whose state
    it leaves as it was, and installs neither an address nor a route. *)
Theorem NewAgent_always_returns_agent (deviceName : string) (w : World H N) :
  exists a err w',
    NewAgent E deviceName w = (Returns (a, err), w')
    /\ Agent.device a = deviceName
    /\ remote w' = remote w
    /\ count installs (calls_since w w') = 0
    /\ count talks_to_server (calls_since w w') = 0.
Proof.
  destruct (NewAgent_shape deviceName w)
    as (a & err & w' & calls & Hrun & Ht & Hr & Hd & _ & Hi & Hsrv & _).
  exists a, err, w'. rewrite (@calls_since_app _ _ w w' calls Ht). auto.
Qed.


(** X18.  When the first read of the keys fails, [NewAgent] returns the
    error behind "Cannot get keys for device: " and the device name; no
    key is generated and the agent holds no keys. *)
Theorem first_key_read_failure_is_wrapped
  (deviceName : string) (w : World H N) (tundev : option TunDevice)
  (h1 h2 h3 : H) (pubKey privKey e : string) :
  startTunDevice E deviceName make_chan (host w) = ((tundev, None), h1) ->
  EnsureLinkUp E NewNetLinkHandle deviceName h1 = (None, h2) ->
  getKeys E deviceName h2 = ((pubKey, privKey, Some e), h3) ->
  NewAgent E deviceName w
  = (Returns (Agent.mk deviceName EmptyString EmptyString NewNetLinkHandle
                       (Some make_chan) tundev,
              Some ("Cannot get keys for device: " ++ deviceName ++ ": "
                    ++ e)),
     mkWorld h3 (remote w)
       (trace w ++
        [Call_startTunDevice deviceName make_chan;
         Go_Run tundev;
         Call_EnsureLinkUp deviceName;
         Call_getKeys deviceName])%list).
Proof.
  intros Hstart Hup Hget. rewrite NewAgent_run, Hstart. cbv zeta.
  rewrite Hup. unfold NewAgent_keys. run. rewrite Hget. tidy. reflexivity.
Qed.

(** X19.  When no key can be generated, [NewAgent] returns the error of
    the generation as it is: the device's key is not written, the keys
    are not read again, and the agent holds no keys. *)
Theorem key_generation_failure_sets_nothing
  (deviceName : string) (w : World H N) (tundev : option TunDevice)
  (h1 h2 h3 h4 : H) (pubKey0 e : string) :
  startTunDevice E deviceName make_chan (host w) = ((tundev, None), h1) ->
  EnsureLinkUp E NewNetLinkHandle deviceName h1 = (None, h2) ->
  getKeys E deviceName h2 = ((pubKey0, emptyKey, None), h3) ->
  GeneratePrivateKey E h3 = (Err e, h4) ->
  NewAgent E deviceName w
  = (Returns (Agent.mk deviceName EmptyString EmptyString NewNetLinkHandle
                       (Some make_chan) tundev, Some e),
     mkWorld h4 (remote w)
       (trace w ++
        [Call_startTunDevice deviceName make_chan;
         Go_Run tundev;
         Call_EnsureLinkUp deviceName;
         Call_getKeys deviceName;
         Call_GeneratePrivateKey])%list).
Proof.
  intros Hstart Hup Hget Hgen. rewrite NewAgent_run, Hstart. cbv zeta.
  rewrite Hup.
  erewrite NewAgent_keys_empty by (cbn [host]; exact Hget).
  cbv zeta. rewrite Hgen. tidy. reflexivity.
Qed.



(** X22.  With a key store that keeps what is set, every agent a
    successful [NewAgent] returns holds a private key other than the
    empty key, and the pair it holds is the pair a read of the device
    finds afterwards. *)
Theorem built_agent_is_keyed
  (KS : KeyStore E) (deviceName : string) (w w' : World H N) (a : Agent.t) :
  NewAgent E deviceName w = (Returns (a, None), w') ->
  Agent.privKey a <> emptyKey
  /\ getKeys E deviceName (host w')
     = ((Agent.pubKey a, Agent.privKey a, None), host w').
Proof.
  rewrite NewAgent_run.
  destruct (startTunDevice E deviceName make_chan (host w))
    as [[tundev [e|]] h1]; [discriminate|].
  cbv zeta.
  destruct (EnsureLinkUp E NewNetLinkHandle deviceName h1) as [[e|] h2];
    [discriminate|].
  destruct (getKeys E deviceName h2) as [[[pub0 priv0] [e|]] h3] eqn:Hget.
  { unfold NewAgent_keys. run. rewrite Hget. discriminate. }
  assert (h3 = h2) as ->.
  { rewrite <- (getKeys_reads KS deviceName h2). now rewrite Hget. }
  destruct (String.eqb_spec priv0 emptyKey) as [->|Hkey].
  - erewrite NewAgent_keys_empty by (cbn [host]; exact Hget).
    cbv zeta.
    destruct (GeneratePrivateKey E h2) as [[newKey|e] h4] eqn:Hgen;
      [|discriminate].
    cbn [Agent.device].
    destruct (setPrivateKey E deviceName (wgtypes.Key_String newKey) h4)
      as [[e|] h5] eqn:Hset; [discriminate|].
    rewrite NewAgent_fetch_run. cbn [host remote trace].
    destruct (getKeys E deviceName h5) as [[[pub1 priv1] err] h6] eqn:Hread.
    assert (h6 = h5) as ->.
    { rewrite <- (getKeys_reads KS deviceName h5). now rewrite Hread. }
    intros Heq. injection Heq as <- -> <-. cbn.
    pose proof (getKeys_after_set KS deviceName newKey h4 Hset Hread) as ->.
    split; [|exact Hread].
    exact (GeneratePrivateKey_not_empty E h2 Hgen).
  - erewrite NewAgent_keys_read by (try exact KS; cbn [host]; eassumption).
    intros Heq. injection Heq as <- <-. cbn. auto.
Qed.


(** X24.  The public key in a lease request is the one the last read of
    the device returned when the agent was built: for an agent returned
    by a successful [NewAgent], every request a later [GetNewWgLease]
    sends has for body the lease request for that public key. *)
Theorem lease_request_carries_key_read_at_construction
  (deviceName : string) (w w1 : World H N) (a : Agent.t) :
  NewAgent E deviceName w = (Returns (a, None), w1) ->
  exists h pubKey privKey,
    getKeys E deviceName h = ((pubKey, privKey, None), host w1)
    /\ forall serverUrl token w2 req,
         In (Call_Do req)
            (calls_since w2 (snd (GetNewWgLease E a serverUrl token w2))) ->
         http.Request.Body req = lease_request_body E pubKey.
Proof.
  intros Hrun.
  destruct (NewAgent_shape deviceName w)
    as (a2 & err2 & w2 & calls & Hrun2 & _ & _ & _ & _ & _ & _ & _ & _ & _
        & Hok).
  rewrite Hrun in Hrun2. injection Hrun2 as <- <- <-.
  destruct (Hok eq_refl) as (h & pubKey & privKey & Hget & Hpub & _).
  exists h, pubKey, privKey. split; [exact Hget|].
  intros serverUrl token w2 req Hin.
  rewrite (GetNewWgLease_requests E a serverUrl token w2 req Hin).
  cbn. now rewrite Hpub.
Qed.

End ConstructionFacts.

(* ===================================================================== *)
(** * Properties of the matchbox groups *)
(* ===================================================================== *)

Section ProvisioningFacts.

Variables role endpoint : string.

Lemma decimal_inj (n m : nat) :
  terraform.decimal n = terraform.decimal m -> n = m.
Proof.
  unfold terraform.decimal. intros Heq.
  assert (Hnil : forall k, Nat.to_uint k <> Decimal.Nil).
  { intros k Hk. pose proof (DecimalNat.Unsigned.of_to k) as Hof.
    rewrite Hk in Hof. cbn in Hof. subst k. discriminate. }
  apply DecimalNat.Unsigned.to_uint_inj.
  pose proof (NilZero.usu (Nat.to_uint n) (Hnil n)) as Hn.
  pose proof (NilZero.usu (Nat.to_uint m) (Hnil m)) as Hm.
  rewrite Heq in Hn. rewrite Hn in Hm. now injection Hm.
Qed.

Lemma append_inj_l (p x y : string) : p ++ x = p ++ y -> x = y.
Proof.
  induction p as [|c p IH]; cbn; [auto|].
  intros Heq. injection Heq as Heq. auto.
Qed.

Lemma indexed_name_inj (i j : nat) :
  terraform.indexed_name role i = terraform.indexed_name role j -> i = j.
Proof.
  unfold terraform.indexed_name. intros Heq.
  apply append_inj_l in Heq. apply (append_inj_l "-") in Heq.
  now apply decimal_inj.
Qed.

Lemma groups_from_macs (i : nat) (es : list terraform.group_entry) :
  map terraform.selector_mac (terraform.groups_from role endpoint i es)
  = map terraform.mac es.
Proof.
  revert i. induction es as [|e es IH]; intros i; cbn; [reflexivity|].
  now rewrite IH.
Qed.

Lemma groups_from_names (i : nat) (es : list terraform.group_entry) :
  map terraform.name (terraform.groups_from role endpoint i es)
  = map (terraform.indexed_name role) (seq i (length es)).
Proof.
  revert i. induction es as [|e es IH]; intros i; cbn; [reflexivity|].
  now rewrite IH.
Qed.

Lemma groups_from_In (i : nat) (es : list terraform.group_entry)
  (g : terraform.matchbox_group) :
  In g (terraform.groups_from role endpoint i es) ->
  exists e, In e es
            /\ terraform.selector_mac g = terraform.mac e
            /\ terraform.profile g = terraform.profile_name e
            /\ terraform.metadata_ignition_endpoint g = endpoint ++ "/ignition".
Proof.
  revert i. induction es as [|e es IH]; intros i; cbn; [contradiction|].
  intros [<-|Hin].
  - exists e. cbn. auto.
  - destruct (IH _ Hin) as (e' & He' & Hrest). exists e'. auto.
Qed.

Lemma groups_from_entry (i : nat) (es : list terraform.group_entry)
  (e : terraform.group_entry) :
  In e es ->
  exists g, In g (terraform.groups_from role endpoint i es)
            /\ terraform.selector_mac g = terraform.mac e
            /\ terraform.profile g = terraform.profile_name e.
Proof.
  revert i. induction es as [|e' es IH]; intros i; cbn; [contradiction|].
  intros [->|Hin].
  - eexists. split; [left; reflexivity|]. cbn. auto.
  - destruct (IH (S i) Hin) as (g & Hg & Hrest). exists g. auto.
Qed.

Lemma entries_macs (i : nat) (peers : list terraform.server_peer) :
  map terraform.mac (concat (terraform.entries_from role i peers))
  = concat (map terraform.mac_addresses peers).
Proof.
  revert i. induction peers as [|p peers IH]; intros i; cbn; [reflexivity|].
  rewrite map_app, IH. f_equal.
  unfold terraform.peer_entries. rewrite map_map. cbn. apply map_id.
Qed.

Lemma entries_In (i : nat) (peers : list terraform.server_peer)
  (e : terraform.group_entry) :
  In e (concat (terraform.entries_from role i peers)) <->
  exists k p,
    nth_error peers k = Some p
    /\ In (terraform.mac e) (terraform.mac_addresses p)
    /\ terraform.profile_index e = i + k
    /\ terraform.profile_name e = terraform.indexed_name role (i + k).
Proof.
  revert i. induction peers as [|p peers IH]; intros i; cbn.
  - split; [contradiction|]. intros (k & p & Hk & _). now destruct k.
  - rewrite in_app_iff, IH. unfold terraform.peer_entries. rewrite in_map_iff.
    split.
    + intros [(m & <- & Hm)|(k & q & Hk & Hm & Hi & Hn)].
      * exists 0, p. cbn. rewrite Nat.add_0_r. auto.
      * exists (S k), q. cbn. rewrite Nat.add_succ_r. auto.
    + intros ([|k] & q & Hk & Hm & Hi & Hn); cbn in Hk.
      * injection Hk as <-. left. exists (terraform.mac e).
        rewrite Nat.add_0_r in *. split; [|exact Hm].
        destruct e; cbn in *; congruence.
      * right. exists k, q. rewrite Nat.add_succ_r in *. auto.
Qed.

(** X25.  There is one matchbox group for each MAC address of each
    server peer: the MAC addresses the groups select are the lists of
    the peers one after the other, in order, so there are as many groups
    as MAC addresses; and each group carries the ignition endpoint. *)
Theorem groups_select_the_macs_in_order (peers : list terraform.server_peer) :
  map terraform.selector_mac (terraform.matchbox_groups role endpoint peers)
  = concat (map terraform.mac_addresses peers)
  /\ length (terraform.matchbox_groups role endpoint peers)
     = list_sum (map (fun p => length (terraform.mac_addresses p)) peers)
  /\ Forall (fun g => terraform.metadata_ignition_endpoint g
                      = endpoint ++ "/ignition")
            (terraform.matchbox_groups role endpoint peers).
Proof.
  unfold terraform.matchbox_groups, terraform.groups.
  assert (Hmacs :
    map terraform.selector_mac
      (terraform.groups_from role endpoint 0
         (concat (terraform.entries_from role 0 peers)))
    = concat (map terraform.mac_addresses peers)).
  { now rewrite groups_from_macs, entries_macs. }
  split; [exact Hmacs|]. split.
  - rewrite <- (length_map terraform.selector_mac), Hmacs.
    rewrite length_concat, map_map. reflexivity.
  - apply Forall_forall. intros g Hg.
    destruct (groups_from_In _ _ _ Hg) as (e & _ & _ & _ & Hmeta).
    exact Hmeta.
Qed.

(** X26.  A group selects a MAC address of some peer and names the
    profile of that very peer, which is one of the declared profiles;
    and every MAC address of every peer has such a group. *)
Theorem group_names_profile_of_its_peer (peers : list terraform.server_peer) :
  (forall g,
     In g (terraform.matchbox_groups role endpoint peers) ->
     exists index p,
       nth_error peers index = Some p
       /\ In (terraform.selector_mac g) (terraform.mac_addresses p)
       /\ terraform.profile g = terraform.indexed_name role index
       /\ In (terraform.profile g)
             (terraform.matchbox_profile_names role peers))
  /\ (forall index p mac_address,
        nth_error peers index = Some p ->
        In mac_address (terraform.mac_addresses p) ->
        exists g,
          In g (terraform.matchbox_groups role endpoint peers)
          /\ terraform.selector_mac g = mac_address
          /\ terraform.profile g = terraform.indexed_name role index).
Proof.
  unfold terraform.matchbox_groups, terraform.groups. split.
  - intros g Hg.
    destruct (groups_from_In _ _ _ Hg) as (e & He & Hmac & Hprof & _).
    apply entries_In in He. destruct He as (k & p & Hk & Hm & _ & Hn).
    cbn in Hn. exists k, p. rewrite Hmac, Hprof, Hn.
    split; [exact Hk|]. split; [exact Hm|]. split; [reflexivity|].
    unfold terraform.matchbox_profile_names. apply in_map, in_seq.
    assert (k < length peers) by (apply nth_error_Some; congruence). lia.
  - intros index p m Hp Hm.
    assert (He : In (terraform.mkEntry m index
                       (terraform.indexed_name role index))
                    (concat (terraform.entries_from role 0 peers))).
    { apply entries_In. exists index, p. cbn. auto. }
    destruct (groups_from_entry 0 _ _ He) as (g & Hg & Hmac & Hprof).
    exists g. cbn in *. auto.
Qed.

(** X27.  Group number [k] has the name made of the role and [k], and
    no two groups have the same name; the same holds for the names of
    the profiles. *)
Theorem group_names_are_distinct (peers : list terraform.server_peer) :
  map terraform.name (terraform.matchbox_groups role endpoint peers)
  = map (terraform.indexed_name role)
        (seq 0 (length (terraform.matchbox_groups role endpoint peers)))
  /\ NoDup (map terraform.name
              (terraform.matchbox_groups role endpoint peers))
  /\ NoDup (terraform.matchbox_profile_names role peers).
Proof.
  assert (Hnodup : forall n,
            NoDup (map (terraform.indexed_name role) (seq 0 n))).
  { intros n. apply NoDup_map_NoDup_ForallPairs; [|apply seq_NoDup].
    intros i j _ _. apply indexed_name_inj. }
  assert (Hlen : forall i es,
            length (terraform.groups_from role endpoint i es) = length es).
  { intros i es. rewrite <- (length_map terraform.selector_mac).
    now rewrite groups_from_macs, length_map. }
  unfold terraform.matchbox_groups.
  rewrite groups_from_names, Hlen.
  split; [reflexivity|]. split; apply Hnodup.
Qed.

End ProvisioningFacts.

(* ===================================================================== *)
(** * The further properties on the test doubles *)
(* ===================================================================== *)

Lemma transport_error_returned_as_is_witness :
  exists w',
    GetNewWgLease Fake.env Scenario.agent Scenario.serverUrl Scenario.token
                  Cases.unreachable
    = (Returns (Some wgtypes.PeerConfig_zero, [], Some "connection refused"),
       w')
    /\ count closes_body (trace w') = 0
    /\ host w' = host Cases.unreachable.
Proof.
  eexists. split.
  - apply (@transport_error_returned_as_is _ _ Fake.env Scenario.agent
             Scenario.serverUrl Scenario.token Cases.unreachable
             "connection refused" []); reflexivity.
  - split; reflexivity.
Defined.

Lemma unreadable_body_reported_witness :
  exists w',
    GetNewWgLease Fake.env Scenario.agent Scenario.serverUrl Scenario.token
                  Cases.broken
    = (Returns (Some wgtypes.PeerConfig_zero, [],
                Some "error reading response body: unexpected EOF,"), w')
    /\ count closes_body (trace w') = 1
    /\ count installs (trace w') = 0.
Proof.
  eexists. split.
  - apply (@unreadable_body_reported _ _ Fake.env Scenario.agent
             Scenario.serverUrl Scenario.token Cases.broken
             Cases.broken_reply [] "unexpected EOF"); reflexivity.
  - split; reflexivity.
Defined.

Lemma undecodable_body_reported_witness :
  exists w',
    requestWgConfig Fake.env Scenario.agent Scenario.serverUrl Scenario.token
                    Cases.garbled
    = (Returns (Response.zero, Some Fake.syntax_error), w')
    /\ GetNewWgLease Fake.env Scenario.agent Scenario.serverUrl Scenario.token
                     Cases.garbled
       = (Returns (Some wgtypes.PeerConfig_zero, [], Some Fake.syntax_error),
          w').
Proof.
  eexists.
  apply (@undecodable_body_reported _ _ Fake.env Scenario.agent
           Scenario.serverUrl Scenario.token Cases.garbled
           (http.Response.mk 200 "200 OK" (http.mkReadCloser "<html>" None))
           [] Response.zero Fake.syntax_error); reflexivity.
Defined.

Lemma address_failure_ends_lease_call_witness :
  (exists w',
     GetNewWgLease Fake.env Scenario.agent Scenario.serverUrl Scenario.token
                   Scenario.world_bad_address
     = (Returns (Some wgtypes.PeerConfig_zero, [],
                 Some ("Cannot parse offered ip net: "
                       ++ "invalid CIDR address: 10.0.0.5")), w')
     /\ count builds_peer (trace w') = 0
     /\ host w' = host Scenario.world_bad_address
     /\ remote w' = [])
  /\ (exists w',
        GetNewWgLease Fake.env Scenario.stray_agent Scenario.serverUrl
                      Scenario.token Scenario.world
        = (Returns (Some wgtypes.PeerConfig_zero, [],
                    Some Fake.no_such_device), w')
        /\ count builds_peer (trace w') = 0
        /\ remote w' = []).
Proof.
  split.
  - destruct (@address_failure_ends_lease_call _ _ Fake.env Scenario.agent
                Scenario.serverUrl Scenario.token Scenario.world_bad_address
                (snd (requestWgConfig Fake.env Scenario.agent
                        Scenario.serverUrl Scenario.token
                        Scenario.world_bad_address))
                (Response.mk "10.0.0.5" "10.0.1.0/24" "abc=" "1.2.3.4:51820")
                eq_refl) as [Hparse _].
    eexists. split; [exact (Hparse _ eq_refl)|]. repeat split.
  - destruct (@address_failure_ends_lease_call _ _ Fake.env
                Scenario.stray_agent Scenario.serverUrl Scenario.token
                Scenario.world
                (snd (requestWgConfig Fake.env Scenario.stray_agent
                        Scenario.serverUrl Scenario.token Scenario.world))
                Scenario.lease eq_refl) as [_ Hkernel].
    eexists. split; [exact (Hkernel _ _ _ eq_refl eq_refl)|]. repeat split.
Defined.

Lemma refused_peer_leaves_address_witness :
  exists w',
    GetNewWgLease Fake.env Scenario.agent Scenario.serverUrl Scenario.token
                  Scenario.world_no_peer_key
    = (Returns (Some wgtypes.PeerConfig_zero, [], Some "empty public key"), w')
    /\ Fake.addresses (host w') = [("wg0", Scenario.ip_10_0_0_5)].
Proof.
  edestruct (@refused_peer_leaves_address _ _ Fake.env Scenario.agent
               Scenario.serverUrl Scenario.token Scenario.world_no_peer_key)
    as (w' & Hrun & Hhost & _);
    [lazy; reflexivity | lazy; reflexivity | lazy; reflexivity
    | lazy; reflexivity |].
  exists w'. split; [exact Hrun|]. rewrite Hhost. reflexivity.
Defined.

Lemma allowed_ips_empty_iff_error_witness :
  ((@None string = None <-> ["10.0.1.0/24"; "10.0.2.0/24"] <> [])
   /\ (@None string = None -> 1 <= length ["10.0.1.0/24"; "10.0.2.0/24"]))
  /\ ((Some "Response status: 500 Internal Server Error" = None
       <-> @nil string <> [])
      /\ (Some "Response status: 500 Internal Server Error" = None
          -> 1 <= length (@nil string))).
Proof.
  split.
  - apply (@allowed_ips_empty_iff_error _ _ Fake.env Scenario.agent
             Scenario.serverUrl Scenario.token Scenario.world
             (snd (GetNewWgLease Fake.env Scenario.agent Scenario.serverUrl
                     Scenario.token Scenario.world))
             (Some Scenario.peer)).
    reflexivity.
  - apply (@allowed_ips_empty_iff_error _ _ Fake.env Scenario.agent
             Scenario.serverUrl Scenario.token Scenario.world_500
             (snd (GetNewWgLease Fake.env Scenario.agent Scenario.serverUrl
                     Scenario.token Scenario.world_500))
             (Some wgtypes.PeerConfig_zero)).
    reflexivity.
Defined.

Lemma routes_installed_in_list_order_witness :
  exists dsts,
    Forall2 (fun s d => Fake.ParseIPNet s = Ok d)
            ["10.0.1.0/24"; "10.0.2.0/24"] dsts
    /\ filter installs_route
         (calls_since Scenario.world_500
            (snd (addRoutesForAllowedIps Fake.env Scenario.agent
                    ["10.0.1.0/24"; "10.0.2.0/24"] Scenario.world_500)))
       = map (Call_AddRoute "wg0") dsts
    /\ count installs_route
         (calls_since Scenario.world_500
            (snd (addRoutesForAllowedIps Fake.env Scenario.agent
                    ["10.0.1.0/24"; "10.0.2.0/24"] Scenario.world_500)))
       = 2.
Proof.
  apply (@routes_installed_in_list_order _ _ Fake.env Scenario.agent
           ["10.0.1.0/24"; "10.0.2.0/24"] Scenario.world_500).
  reflexivity.
Defined.

Lemma addRoutes_error_has_first_failure_witness :
  exists before aip after w1,
    ["10.0.1.0/24"; "bad"; "10.0.2.0/24"] = (before ++ aip :: after)%list
    /\ addRoutesForAllowedIps Fake.env Scenario.agent before
                              Scenario.world_500
       = (Returns None, w1)
    /\ ((exists e, Fake.ParseIPNet aip = Err e
                   /\ "Cannot parse ip: bad: invalid CIDR address: bad"
                      = "Cannot parse ip: " ++ aip ++ ": " ++ e)
        \/ (exists dst e h',
              Fake.ParseIPNet aip = Ok dst
              /\ Fake.AddRoute NewNetLinkHandle "wg0" dst (host w1)
                 = (Some e, h')
              /\ "Cannot parse ip: bad: invalid CIDR address: bad"
                 = "Eror adding route " ++ Fake.IPNet_String dst ++ " via "
                   ++ "wg0" ++ ": " ++ e)).
Proof.
  apply (@addRoutes_error_has_first_failure _ _ Fake.env Scenario.agent
           ["10.0.1.0/24"; "bad"; "10.0.2.0/24"] Scenario.world_500
           (snd (addRoutesForAllowedIps Fake.env Scenario.agent
                   ["10.0.1.0/24"; "bad"; "10.0.2.0/24"]
                   Scenario.world_500))).
  reflexivity.
Defined.

Lemma unparsable_entry_fails_routes_witness :
  (exists msg w',
     addRoutesForAllowedIps Fake.env Scenario.agent
       (strings.Split "10.0.1.0/24," ","%char) Scenario.world_500
     = (Returns (Some msg), w'))
  /\ addRoutesForAllowedIps Fake.env Scenario.agent
       (strings.Split EmptyString ","%char) Scenario.world_500
     = (Returns (Some "Cannot parse ip: : invalid CIDR address: "),
        mkWorld (host Scenario.world_500) (remote Scenario.world_500)
          (trace Scenario.world_500 ++ [Call_ParseIPNet EmptyString])%list).
Proof.
  destruct (@unparsable_entry_fails_routes _ _ Fake.env Scenario.agent
              Scenario.world_500 "invalid CIDR address: " eq_refl)
    as [Hany Hempty].
  split; [|exact Hempty].
  apply Hany. cbn. auto.
Defined.

Lemma link_failure_leaves_run_loop_witness :
  exists w',
    NewAgent (Faulty.env Faulty.link_down) "wg0" Scenario.blank_world
    = (Returns (Agent.mk "wg0" EmptyString EmptyString NewNetLinkHandle
                         (Some make_chan) (Some (TunDevice_of "wg0")),
                Some Faulty.not_permitted), w')
    /\ count starts_run_loop (trace w') = 1
    /\ Fake.links_up (host w') = [].
Proof.
  eexists. split.
  - eapply (@link_failure_leaves_run_loop _ _ (Faulty.env Faulty.link_down)
              "wg0" Scenario.blank_world); lazy; reflexivity.
  - split; reflexivity.
Defined.

Lemma first_key_read_failure_is_wrapped_witness :
  exists w',
    NewAgent (Faulty.env Faulty.unreadable) "wg0" Scenario.blank_world
    = (Returns (Agent.mk "wg0" EmptyString EmptyString NewNetLinkHandle
                         (Some make_chan) (Some (TunDevice_of "wg0")),
                Some ("Cannot get keys for device: wg0: "
                      ++ "operation not permitted")),
       w')
    /\ count generates_key (trace w') = 0.
Proof.
  eexists. split.
  - eapply (@first_key_read_failure_is_wrapped _ _
              (Faulty.env Faulty.unreadable) "wg0" Scenario.blank_world);
      lazy; reflexivity.
  - reflexivity.
Defined.

Lemma key_generation_failure_sets_nothing_witness :
  exists w',
    NewAgent Fake.env "wg0" Cases.no_entropy
    = (Returns (Agent.mk "wg0" EmptyString EmptyString NewNetLinkHandle
                         (Some make_chan) (Some (TunDevice_of "wg0")),
                Some "wgtypes: failed to read random bytes: EOF"), w')
    /\ count writes_key (trace w') = 0
    /\ Fake.keys (host w') = [].
Proof.
  eexists. split.
  - eapply (@key_generation_failure_sets_nothing _ _ Fake.env "wg0"
              Cases.no_entropy); lazy; reflexivity.
  - split; reflexivity.
Defined.



Lemma built_agent_is_keyed_witness :
  Agent.privKey (Cases.built Fake.env "wg0" Scenario.blank_world) <> emptyKey
  /\ Fake.getKeys "wg0"
       (host (Cases.after_build Fake.env "wg0" Scenario.blank_world))
     = ((Agent.pubKey (Cases.built Fake.env "wg0" Scenario.blank_world),
         Agent.privKey (Cases.built Fake.env "wg0" Scenario.blank_world),
         None),
        host (Cases.after_build Fake.env "wg0" Scenario.blank_world)).
Proof.
  apply (@built_agent_is_keyed _ _ Fake.env Fake_KeyStore "wg0"
           Scenario.blank_world
           (Cases.after_build Fake.env "wg0" Scenario.blank_world)
           (Cases.built Fake.env "wg0" Scenario.blank_world)).
  reflexivity.
Defined.


Lemma lease_request_carries_key_read_at_construction_witness :
  exists h pubKey privKey,
    Fake.getKeys "wg0" h
    = ((pubKey, privKey, None),
       host (Cases.after_build Fake.env "wg0" Scenario.blank_world))
    /\ (In (Call_Do (lease_request Fake.env
                       (Cases.built Fake.env "wg0" Scenario.blank_world)
                       Scenario.serverUrl Scenario.token))
           (calls_since Scenario.world
              (snd (GetNewWgLease Fake.env
                      (Cases.built Fake.env "wg0" Scenario.blank_world)
                      Scenario.serverUrl Scenario.token Scenario.world)))
        /\ lease_request_body Fake.env
             (Agent.pubKey (Cases.built Fake.env "wg0" Scenario.blank_world))
           = lease_request_body Fake.env pubKey).
Proof.
  destruct (@lease_request_carries_key_read_at_construction _ _ Fake.env
              "wg0" Scenario.blank_world
              (Cases.after_build Fake.env "wg0" Scenario.blank_world)
              (Cases.built Fake.env "wg0" Scenario.blank_world) eq_refl)
    as (h & pubKey & privKey & Hget & Hbody).
  exists h, pubKey, privKey. split; [exact Hget|].
  assert (Hin : In (Call_Do (lease_request Fake.env
                      (Cases.built Fake.env "wg0" Scenario.blank_world)
                      Scenario.serverUrl Scenario.token))
                   (calls_since Scenario.world
                      (snd (GetNewWgLease Fake.env
                              (Cases.built Fake.env "wg0"
                                           Scenario.blank_world)
                              Scenario.serverUrl Scenario.token
                              Scenario.world)))).
  { vm_compute. auto. }
  split; [exact Hin|].
  exact (Hbody _ _ _ _ Hin).
Defined.

(** Two peers, the first with two MAC addresses. *)
Example matchbox_groups_of_two_peers :
  terraform.matchbox_groups "wiresteward" "http://matchbox:8080"
    [terraform.mkPeer ["aa:aa"; "bb:bb"]; terraform.mkPeer ["cc:cc"]]
  = [terraform.mkGroup "wiresteward-0" "wiresteward-0" "aa:aa"
                       "http://matchbox:8080/ignition";
     terraform.mkGroup "wiresteward-1" "wiresteward-0" "bb:bb"
                       "http://matchbox:8080/ignition";
     terraform.mkGroup "wiresteward-2" "wiresteward-1" "cc:cc"
                       "http://matchbox:8080/ignition"].
Proof. reflexivity. Qed.
